(** * Config Validator: the multi-target review orchestrator

    A shallow embedding of [pkg/gcv/validator.go]: client bootstrapping
    ([newCFClient], [NewValidatorFromConfig]), ancestry resolution
    ([fixAncestry]), target classification and dispatch
    ([ReviewUnmarshalledJSON], [reviewK8SResource], [reviewGCPResource]) and
    the Terraform entry point ([ReviewTFResourceChange]).

    Go maps are reference values that the validator mutates in place, so a
    resource is a location in a store of maps; the constraint framework
    clients are driven through an explicit trace of the calls made to them. *)

From stdpp Require Import gmap strings list fin_maps.

Set Warnings "-register-all".
Open Scope string_scope.
Open Scope list_scope.

(** ** Go values *)

(** An [interface{}] as [encoding/json] produces it: nil, booleans, numbers,
    strings, [[]interface{}] and [map[string]interface{}]. *)
Inductive value :=
| VNil
| VBool (b : bool)
| VNum (n : Z)
| VStr (s : string)
| VSlice (l : list value)
| VMap (m : gmap string value).

(** [m[k]] on a Go map: the zero value (nil interface) when the key is absent. *)
Definition index (m : gmap string value) (k : string) : value :=
  default VNil (m !! k).

(** ** Errors, panics and outcomes *)

Inductive error :=
| ErrMsg (msg : string)
    (* errors.New(msg) and errors of the collaborators *)
| ErrFmtV (msg : string) (arg : value)
    (* fmt.Errorf(msg + "%v", arg) *)
| ErrAccessor (fields : list string) (val : value) (expected : string)
    (* the accessor errors of apimachinery's unstructured helpers *)
| ErrWrap (msg : string) (cause : option error)
    (* fmt.Errorf(msg + "%w", cause); cause may be a nil error *)
| ErrWrapV (msg : string) (arg : string) (cause : error)
    (* fmt.Errorf(msg + "%v: %w", arg, cause) *)
| ErrMulti (causes : list error).
    (* multierror.Errors.ToError *)

Inductive panic :=
| PanicTypeAssertion (val : value) (want : string)
    (* x.(T) in its single-value form on a value that is not a T *)
| PanicNilMap.
    (* assignment to entry in nil map *)

Inductive outcome (A : Type) :=
| Ok (a : A)
| Err (e : error)
| Panic (p : panic).
Arguments Ok {A} a.
Arguments Err {A} e.
Arguments Panic {A} p.

(** ** The accessors of [k8s.io/apimachinery/.../unstructured] *)

(** Results are the Go triples [(value, found, err)]. *)
Fixpoint nestedFieldFrom (val : value) (seen fields : list string)
  : value * bool * option error :=
  match fields with
  | [] => (val, true, None)
  | field :: rest =>
      match val with
      | VNil => (VNil, false, None)
      | VMap m =>
          match m !! field with
          | Some val' => nestedFieldFrom val' (seen ++ [field]) rest
          | None => (VNil, false, None)
          end
      | _ => (VNil, false,
              Some (ErrAccessor (seen ++ [field]) val "map[string]interface{}"))
      end
  end.

Definition NestedFieldNoCopy (obj : gmap string value) (fields : list string)
  : value * bool * option error :=
  nestedFieldFrom (VMap obj) [] fields.

Definition NestedString (obj : gmap string value) (fields : list string)
  : string * bool * option error :=
  match NestedFieldNoCopy obj fields with
  | (val, true, None) =>
      match val with
      | VStr s => (s, true, None)
      | _ => (EmptyString, false, Some (ErrAccessor fields val "string"))
      end
  | (_, found, err) => (EmptyString, found, err)
  end.

(** The loop of [NestedStringSlice]: every element must be a string. *)
Fixpoint stringSlice (fields : list string) (m : list value) (acc : list string)
  : list string * bool * option error :=
  match m with
  | [] => (acc, true, None)
  | VStr str :: rest => stringSlice fields rest (acc ++ [str])
  | v :: _ => ([], false, Some (ErrAccessor fields v "string"))
  end.

Definition NestedStringSlice (obj : gmap string value) (fields : list string)
  : list string * bool * option error :=
  match NestedFieldNoCopy obj fields with
  | (val, true, None) =>
      match val with
      | VSlice m => stringSlice fields m []
      | _ => ([], false, Some (ErrAccessor fields val "[]interface{}"))
      end
  | (_, found, err) => ([], found, err)
  end.

Definition NestedMap (obj : gmap string value) (fields : list string)
  : gmap string value * bool * option error :=
  match NestedFieldNoCopy obj fields with
  | (val, true, None) =>
      match val with
      | VMap m => (m, true, None)
      | _ => (∅, false, Some (ErrAccessor fields val "map[string]interface{}"))
      end
  | (_, found, err) => (∅, found, err)
  end.

(** [GetName] of an [Unstructured] object: its display name, the empty
    string when [metadata.name] is missing or not a string. *)
Definition GetName (object : gmap string value) : string :=
  match NestedString object ["metadata"; "name"] with
  | (s, true, None) => s
  | _ => EmptyString
  end.

(** ** Constants and option types of the package *)

Definition ancestryPathKey : string := "ancestry_path".
Definition ancestorSliceKey : string := "ancestors".

(** The three target handlers: [gcptarget.New()],
    [&k8starget.K8sValidationTarget{}] and [tftarget.New()]. *)
Inductive handler := GCPTarget | K8sValidationTarget | TFTarget.

(** [local.Arg] values built in this file. *)
Inductive driverArg :=
| Tracing (enabled : bool)
| DisableBuiltinsArg (builtins : list string).

(** [cfclient.Opt] values built in this file. *)
Inductive clientOpt (D : Type) :=
| Targets (h : handler)
| Driver (d : D).
Arguments Targets {D} h.
Arguments Driver {D} d.

Definition loc := positive.

(** ** External collaborators *)

(** The constraint framework: the local driver and the client
    ([frameworks/constraint/pkg/client]).  [AddTemplate] and [AddConstraint]
    mutate the client they are called on; [Review] only reads it. *)
Class Engine := {
  driver : Type;
  client : Type;
  template : Type;       (* *cftemplates.ConstraintTemplate *)
  responses : Type;      (* *cftypes.Responses *)
  localNew : list driverArg -> driver + error;
  cfNewClient : list (clientOpt driver) -> client + error;
  cfAddTemplate : client -> template -> client * option error;
  cfAddConstraint : client -> gmap string value -> client * option error;
  cfReview : client -> gmap string value -> responses + error;
  fmtTemplate : template -> string;               (* the verb %v *)
  fmtConstraint : gmap string value -> string;    (* the verb %s *)
}.

(** The packages of this repository that [validator.go] calls and whose
    sources are not part of this development: [pkg/asset], [pkg/gcv/configs],
    [pkg/tftarget], the [Result] translation of [pkg/gcv] and the JSON
    decoder.  They are parameters of the orchestrator. *)
Class Collaborators `{Engine} := {
  AncestryPath : list string -> string;                   (* asset2.AncestryPath *)
  NormalizeAncestry : string -> string;                   (* configs.NormalizeAncestry *)
  IsK8S : gmap string value -> bool;                      (* asset2.IsK8S *)
  ConvertCAIToK8s : gmap string value -> gmap string value + error;
                                                          (* asset2.ConvertCAIToK8s, the Object *)
  tfHandleReview : gmap string value -> bool * value * option error;
                                                          (* tftarget HandleReview *)
  Asset : Type;                                           (* *validator.Asset *)
  SanitizeAncestryPath : Asset -> Asset + error;
  ValidateAsset : Asset -> option error;
  ConvertResourceViaJSONToInterface : Asset -> value + error;
  jsonUnmarshal : string -> gmap string value + error;    (* json.Unmarshal into a map *)
  newResultError : handler -> responses -> option error;  (* when NewResult fails *)
  violation : Type;                                       (* *validator.Violation *)
  toViolations : handler -> string -> gmap string value -> gmap string value ->
                 responses -> list violation + error;
}.

(** ** pkg/multierror *)

Module multierror.
(** Modelled from the spec: [multierror.Errors] is not among the sources.  It
    is the collection of causes in insertion order, exposed as one error. *)
Definition Errors := list error.
Definition Add (errs : Errors) (e : error) : Errors := errs ++ [e].
Definition Empty (errs : Errors) : bool :=
  match errs with [] => true | _ => false end.
Definition ToError (errs : Errors) : error := ErrMulti errs.
End multierror.

(** ** Well-typed ancestry representations *)

(** The strings of a [[]interface{}] whose elements are all strings. *)
Fixpoint asStrings (l : list value) : option (list string) :=
  match l with
  | [] => Some []
  | VStr s :: rest =>
      match asStrings rest with
      | Some ss => Some (s :: ss)
      | None => None
      end
  | _ :: _ => None
  end.

(** The ancestors sequence of a resource, when present and well-typed. *)
Definition ancestorsOf (m : gmap string value) : option (list string) :=
  match m !! ancestorSliceKey with
  | Some (VSlice l) => asStrings l
  | _ => None
  end.

(** The path string of a resource, when present and well-typed. *)
Definition ancestryPathOf (m : gmap string value) : option string :=
  match m !! ancestryPathKey with
  | Some (VStr p) => Some p
  | _ => None
  end.

(** A field of a resource, when present and a string. *)
Definition stringAt (m : gmap string value) (k : string) : option string :=
  match m !! k with
  | Some (VStr s) => Some s
  | _ => None
  end.

(** The name field of a resource, when present and a string. *)
Definition nameOf (m : gmap string value) : option string := stringAt m "name".

(** ** The orchestrator *)

Section Orchestrator.
Context {Eng : Engine} {Col : Collaborators}.

(** Calls made to constraint framework clients. *)
Inductive event :=
| EvAddTemplate (t : template)
| EvAddConstraint (c : gmap string value)
| EvReview (target : handler) (obj : loc) (content : gmap string value).

(** The store of [map[string]interface{}] objects and the call trace. *)
Record state := State {
  heap : gmap loc (gmap string value);
  trace : list event;
}.

(** Computations: they may return, fail with an error, or panic; the store
    and the trace survive in every case. *)
Definition M (A : Type) : Type := state -> outcome A * state.

Definition ret {A} (a : A) : M A := fun st => (Ok a, st).
Definition fail {A} (e : error) : M A := fun st => (Err e, st).
Definition throw {A} (p : panic) : M A := fun st => (Panic p, st).
Definition bind {A B} (c : M A) (k : A -> M B) : M B :=
  fun st =>
    match c st with
    | (Ok a, st') => k a st'
    | (Err e, st') => (Err e, st')
    | (Panic p, st') => (Panic p, st')
    end.

Local Notation "'let*' x := c 'in' k" := (bind c (fun x => k))
  (at level 10, x binder, c at level 100, k at level 200).

(** Reading a map reference; a nil map (no object in the store) reads as
    empty. *)
Definition load (l : loc) : M (gmap string value) :=
  fun st => (Ok (default ∅ (heap st !! l)), st).

(** [m[k] = v] through a map reference. *)
Definition setEntry (l : loc) (k : string) (v : value) : M unit :=
  fun st =>
    match heap st !! l with
    | Some m => (Ok tt, State (<[l := <[k := v]> m]> (heap st)) (trace st))
    | None => (Panic PanicNilMap, st)
    end.

(** A new map object. *)
Definition alloc (m : gmap string value) : M loc :=
  fun st =>
    let l := fresh (dom (heap st)) in
    (Ok l, State (<[l := m]> (heap st)) (trace st)).

(** [json.Unmarshal(data, &asset)] into a map that is still empty. *)
Definition unmarshalInto (data : string) (asset : loc) : M unit :=
  match jsonUnmarshal data with
  | inl m => fun st => (Ok tt, State (<[asset := m]> (heap st)) (trace st))
  | inr e => fail e
  end.

Definition log (e : event) : M unit :=
  fun st => (Ok tt, State (heap st) (trace st ++ [e])).

(** [x.(string)], single-value form. *)
Definition assertString (x : value) : M string :=
  match x with
  | VStr s => ret s
  | _ => throw (PanicTypeAssertion x "string")
  end.

(** [(val, err)] results of the collaborators. *)
Definition lift {A} (r : A + error) : M A :=
  match r with
  | inl a => ret a
  | inr e => fail e
  end.

(** [if err != nil { return nil, fmt.Errorf(msg + "%w", err) }] after a call. *)
Definition wrapErr {A} (msg : string) (c : M A) : M A :=
  fun st =>
    match c st with
    | (Err e, st') => (Err (ErrWrap msg (Some e)), st')
    | r => r
    end.

(** *** Client bootstrapping *)

Record Validator := {
  policyPaths : list string;
  policyLibraryDir : string;
  gcpCFClient : client;
  k8sCFClient : client;
  tfCFClient : client;
}.

Record initOptions := InitOptions {
  driverArgs : list driverArg;
  clientArgs : list (clientOpt driver);
}.

Definition Option := initOptions -> initOptions.

Definition DisableBuiltins (builtins : list string) : Option :=
  fun o => InitOptions (driverArgs o ++ [DisableBuiltinsArg builtins]) (clientArgs o).

(** The first loop of [newCFClient]: every template is tried, failures are
    collected. *)
Fixpoint addTemplates (cfClient : client) (templates : list template)
    (errs : multierror.Errors) : M (client * multierror.Errors) :=
  match templates with
  | [] => ret (cfClient, errs)
  | template :: rest =>
      let* _ := log (EvAddTemplate template) in
      match cfAddTemplate cfClient template with
      | (cfClient, Some err) =>
          addTemplates cfClient rest
            (multierror.Add errs
               (ErrWrapV "failed to add template " (fmtTemplate template) err))
      | (cfClient, None) => addTemplates cfClient rest errs
      end
  end.

(** The second loop. *)
Fixpoint addConstraints (cfClient : client) (constraints : list (gmap string value))
    (errs : multierror.Errors) : M (client * multierror.Errors) :=
  match constraints with
  | [] => ret (cfClient, errs)
  | constraint :: rest =>
      let* _ := log (EvAddConstraint constraint) in
      match cfAddConstraint cfClient constraint with
      | (cfClient, Some err) =>
          addConstraints cfClient rest
            (multierror.Add errs
               (ErrWrapV "failed to add constraint " (fmtConstraint constraint) err))
      | (cfClient, None) => addConstraints cfClient rest errs
      end
  end.

Definition applyOptions (opts : list Option) (options : initOptions) : initOptions :=
  fold_left (fun o opt => opt o) opts options.

Definition newCFClient (targetHandler : handler) (templates : list template)
    (constraints : list (gmap string value)) (opts : list Option) : M client :=
  let options :=
    applyOptions opts (InitOptions [Tracing false] [Targets targetHandler]) in
  let* driver := wrapErr "unable to create new driver: "
                   (lift (localNew (driverArgs options))) in
  let args := clientArgs options ++ [Driver driver] in
  let* cfClient := wrapErr "unable to set up Constraint Framework client: "
                     (lift (cfNewClient args)) in
  let* loaded := addTemplates cfClient templates [] in
  let '(cfClient, errs) := loaded in
  if negb (multierror.Empty errs) then fail (multierror.ToError errs) else
  let* loaded := addConstraints cfClient constraints errs in
  let '(cfClient, errs) := loaded in
  if negb (multierror.Empty errs) then fail (multierror.ToError errs) else
  ret cfClient.

(** The fields of [configs.Configuration] that the constructor reads. *)
Record Configuration := {
  GCPTemplates : list template;
  GCPConstraints : list (gmap string value);
  K8STemplates : list template;
  K8SConstraints : list (gmap string value);
  TFTemplates : list template;
  TFConstraints : list (gmap string value);
}.

Definition NewValidatorFromConfig (config : Configuration) (opts : list Option)
  : M Validator :=
  let* gcpCFClient :=
    wrapErr "unable to set up GCP Constraint Framework client: "
      (newCFClient GCPTarget (GCPTemplates config) (GCPConstraints config) opts) in
  let* k8sCFClient :=
    wrapErr "unable to set up K8S Constraint Framework client: "
      (newCFClient K8sValidationTarget (K8STemplates config) (K8SConstraints config) opts) in
  let* tfCFClient :=
    wrapErr "unable to set up TF Constraint Framework client: "
      (newCFClient TFTarget (TFTemplates config) (TFConstraints config) opts) in
  ret {| policyPaths := []; policyLibraryDir := EmptyString;
         gcpCFClient := gcpCFClient; k8sCFClient := k8sCFClient;
         tfCFClient := tfCFClient |}.

(** *** Results *)

(** Modelled from the spec: [Result], [NewResult] and [ToViolations] live in
    the result translator of [pkg/gcv], which is not among the sources.  A
    result wraps the target domain, the display identifier, the pre- and
    post-adaptation resource and the raw responses; the target names
    ([gcptarget.Name], [configs.K8STargetName], [tftarget.Name]) are
    constants of other packages and are recorded as the target they name.
    When [NewResult] fails and how violations are materialised is left to
    the collaborators. *)
Record Result := {
  Target : handler;
  Name : string;
  InputResource : loc;
  ReviewResource : loc;
  Responses : responses;
}.

Definition NewResult (target : handler) (name : string)
    (inputResource reviewResource : loc) (resp : responses) : M Result :=
  match newResultError target resp with
  | Some e => fail e
  | None => ret {| Target := target; Name := name;
                   InputResource := inputResource;
                   ReviewResource := reviewResource;
                   Responses := resp |}
  end.

Definition ToViolations (r : Result) : M (list violation) :=
  let* input := load (InputResource r) in
  let* review := load (ReviewResource r) in
  lift (toViolations (Target r) (Name r) input review (Responses r)).

(** *** Review entry points *)

(** [cfClient.Review(ctx, obj)]. *)
Definition Review (target : handler) (cfClient : client) (obj : loc) : M responses :=
  let* content := load obj in
  let* _ := log (EvReview target obj content) in
  lift (cfReview cfClient content).

Definition ReviewTFResourceChange (v : Validator) (inputResource : loc)
  : M (list violation) :=
  let* input := load inputResource in
  let '(handled, _, err) := tfHandleReview input in
  if negb handled then fail (ErrWrap "Unhandled resource: " err) else
  let* responses :=
    wrapErr "TF target Constraint Framework review call failed: "
      (Review TFTarget (tfCFClient v) inputResource) in
  let* input := load inputResource in
  let* address := assertString (index input "address") in
  let* result := NewResult TFTarget address inputResource inputResource responses in
  ToViolations result.

Definition fixAncestry (input : loc) : M unit :=
  let* m := load input in
  match NestedStringSlice m [ancestorSliceKey] with
  | (ancestors, true, None) =>
      setEntry input ancestryPathKey (VStr (AncestryPath ancestors))
  | _ =>
      match NestedString m [ancestryPathKey] with
      | (ancestry, true, None) =>
          setEntry input ancestryPathKey (VStr (NormalizeAncestry ancestry))
      | _ => fail (ErrFmtV "asset missing ancestry information: " (VMap m))
      end
  end.

Definition reviewK8SResource (v : Validator) (asset : loc) : M Result :=
  let* m := load asset in
  let* object := wrapErr "failed to convert asset to admission request: "
                   (lift (ConvertCAIToK8s m)) in
  let* k8sResource := alloc object in
  let* responses :=
    wrapErr "K8S target Constraint Framework review call failed: "
      (Review K8sValidationTarget (k8sCFClient v) k8sResource) in
  let* m := load asset in
  let* name := assertString (index m "name") in
  NewResult K8sValidationTarget name asset k8sResource responses.

Definition reviewGCPResource (v : Validator) (asset : loc) : M Result :=
  let* responses :=
    wrapErr "GCP target Constraint Framework review call failed: "
      (Review GCPTarget (gcpCFClient v) asset) in
  let* m := load asset in
  let* name := assertString (index m "name") in
  NewResult GCPTarget name asset asset responses.

Definition ReviewUnmarshalledJSON (v : Validator) (asset : loc) : M Result :=
  let* _ := fixAncestry asset in
  let* m := load asset in
  if IsK8S m then reviewK8SResource v asset else reviewGCPResource v asset.

Definition ReviewJSON (v : Validator) (data : string) : M Result :=
  let* asset := alloc ∅ in
  let* _ := wrapErr "failed to unmarshal json: " (unmarshalInto data asset) in
  ReviewUnmarshalledJSON v asset.

Definition ReviewAsset (v : Validator) (asset : Asset) : M (list violation) :=
  let* asset := lift (SanitizeAncestryPath asset) in
  match ValidateAsset asset with
  | Some err => fail err
  | None =>
      let* assetInterface := lift (ConvertResourceViaJSONToInterface asset) in
      match assetInterface with
      | VMap m =>
          let* assetMapInterface := alloc m in
          let* result := ReviewUnmarshalledJSON v assetMapInterface in
          ToViolations result
      | _ => throw (PanicTypeAssertion assetInterface "map[string]interface {}")
      end
  end.

(** *** Specification-side definitions *)

(** What [fixAncestry] writes: the encoding of the ancestors when they are
    well-typed, else the normalised path string when it is. *)
Definition resolvedAncestry (m : gmap string value) : option string :=
  match ancestorsOf m with
  | Some anc => Some (AncestryPath anc)
  | None =>
      match ancestryPathOf m with
      | Some p => Some (NormalizeAncestry p)
      | None => None
      end
  end.

(** The store after [m[k] = v] at [l]. *)
Definition updated (st : state) (l : loc) (m : gmap string value) : state :=
  State (<[l := m]> (heap st)) (trace st).

(** The map behind a reference, as [load] reads it. *)
Definition content (st : state) (l : loc) : gmap string value :=
  default ∅ (heap st !! l).

(** The store after one more call on a client. *)
Definition logged (st : state) (e : event) : state :=
  State (heap st) (trace st ++ [e]).

(** The client after the [AddTemplate] calls on [ts], and what each call
    returned, in call order. *)
Definition clientAfterTemplates (c : client) (ts : list template) : client :=
  fold_left (fun c t => fst (cfAddTemplate c t)) ts c.

Fixpoint templateOutcomes (c : client) (ts : list template)
  : list (template * option error) :=
  match ts with
  | [] => []
  | t :: rest =>
      (t, snd (cfAddTemplate c t)) :: templateOutcomes (fst (cfAddTemplate c t)) rest
  end.

(** The entry of the aggregated error for a template that failed to load. *)
Definition templateFailure (o : template * option error) : option error :=
  match snd o with
  | Some err => Some (ErrWrapV "failed to add template " (fmtTemplate (fst o)) err)
  | None => None
  end.

Definition templateFailures (c : client) (ts : list template) : list error :=
  omap templateFailure (templateOutcomes c ts).

(** The same for [AddConstraint]. *)
Definition clientAfterConstraints (c : client) (cs : list (gmap string value))
  : client :=
  fold_left (fun c k => fst (cfAddConstraint c k)) cs c.

Fixpoint constraintOutcomes (c : client) (cs : list (gmap string value))
  : list (gmap string value * option error) :=
  match cs with
  | [] => []
  | k :: rest =>
      (k, snd (cfAddConstraint c k))
        :: constraintOutcomes (fst (cfAddConstraint c k)) rest
  end.

Definition constraintFailure (o : gmap string value * option error) : option error :=
  match snd o with
  | Some err => Some (ErrWrapV "failed to add constraint " (fmtConstraint (fst o)) err)
  | None => None
  end.

Definition constraintFailures (c : client) (cs : list (gmap string value))
  : list error :=
  omap constraintFailure (constraintOutcomes c cs).

(** The options [newCFClient] hands to the driver and the client. *)
Definition bootOptions (targetHandler : handler) (opts : list Option) : initOptions :=
  applyOptions opts (InitOptions [Tracing false] [Targets targetHandler]).

(** The verdict of the Terraform adapter on a map. *)
Definition tfHandled (m : gmap string value) : bool := fst (fst (tfHandleReview m)).

(** Modelled from the spec: the Terraform adapter [HandleReview] of
    [pkg/tftarget] is not among the sources.  The spec says that it reports an
    input as handled only when it is a recognised planned-change shape, and
    that an input without an [address] field is not one. *)
Definition tfRecognisedHasAddress : Prop :=
  forall m, tfHandled m = true -> is_Some (m !! "address").

(** Modelled from the spec: [configs.NormalizeAncestry] is not among the
    sources.  The spec calls it an idempotent re-encoding of the path
    string; this is that property at one string. *)
Definition normalizeIdempotentAt (p : string) : Prop :=
  NormalizeAncestry (NormalizeAncestry p) = NormalizeAncestry p.

End Orchestrator.

(** ** Reference collaborators

    Instances of [Engine] and [Collaborators] on which the orchestrator can be
    run.  They stand in for the constraint framework and for the packages
    that are not part of this development. *)
Module Sample.

(** [strings.ReplaceAll old new s] for a non-empty [old]; [skip] counts the
    characters of a match still to be dropped. *)
Fixpoint replaceFrom (old new : string) (skip : nat) (s : string) : string :=
  match s with
  | EmptyString => EmptyString
  | String c rest =>
      match skip with
      | S k => replaceFrom old new k rest
      | O =>
          if String.prefix old s
          then (new +:+ replaceFrom old new (String.length old - 1) rest)%string
          else String c (replaceFrom old new O rest)
      end
  end.

Definition replaceAll (old new s : string) : string := replaceFrom old new 0 s.

(** A client remembers the kinds of its templates and its constraints. *)
Record cfClient := {
  kinds : list string;
  loaded : list (gmap string value);
}.

Definition kindOf (c : gmap string value) : string :=
  match c !! "kind" with
  | Some (VStr k) => k
  | _ => EmptyString
  end.

#[export] Instance engine : Engine := {|
  driver := list driverArg;
  client := cfClient;
  template := string;
  responses := list string;
  localNew args := inl args;
  cfNewClient _ := inl {| kinds := []; loaded := [] |};
  cfAddTemplate c t :=
    if String.eqb t EmptyString
    then (c, Some (ErrMsg "template has no kind"))
    else ({| kinds := kinds c ++ [t]; loaded := loaded c |}, None);
  cfAddConstraint c k :=
    if bool_decide (kindOf k ∈ kinds c)
    then ({| kinds := kinds c; loaded := loaded c ++ [k] |}, None)
    else (c, Some (ErrMsg "no template for the kind of the constraint"));
  cfReview c _ := inl (kindOf <$> loaded c);
  fmtTemplate t := t;
  fmtConstraint := kindOf;
|}.

#[export] Instance collaborators : Collaborators := {|
  AncestryPath ancestors := String.concat "/" ancestors;
  NormalizeAncestry val :=
    replaceAll "project/" "projects/"
      (replaceAll "folder/" "folders/"
         (replaceAll "organization/" "organizations/" val));
  IsK8S m :=
    match NestedString m ["asset_type"] with
    | (t, true, None) => String.prefix "k8s.io/" t
    | _ => false
    end;
  ConvertCAIToK8s m :=
    match NestedMap m ["resource"; "data"] with
    | (object, true, None) => inl object
    | (_, _, Some err) => inr err
    | _ => inr (ErrMsg "asset has no resource data")
    end;
  tfHandleReview m :=
    match NestedString m ["address"] with
    | (_, true, None) => (true, VMap m, None)
    | (_, _, err) => (false, VNil, err)
    end;
  Asset := gmap string value;
  SanitizeAncestryPath a := inl a;
  ValidateAsset a :=
    match nameOf a with
    | Some _ => None
    | None => Some (ErrMsg "missing asset name")
    end;
  ConvertResourceViaJSONToInterface a := inl (VMap a);
  jsonUnmarshal _ := inr (ErrMsg "unexpected end of JSON input");
  newResultError _ _ := None;
  violation := string;
  toViolations _ _ _ _ resp := inl resp;
|}.

Definition validator : Validator := {|
  policyPaths := [];
  policyLibraryDir := EmptyString;
  gcpCFClient := {| kinds := []; loaded := [] |};
  k8sCFClient := {| kinds := []; loaded := [] |};
  tfCFClient := {| kinds := []; loaded := [] |};
|}.

(** A store holding one map, at location [1], and no calls made yet. *)
Definition store (m : gmap string value) : state :=
  State {[ 1%positive := m ]} [].

(** Assets. *)
Definition assetWithBoth : gmap string value :=
  {[ "name" := VStr "a";
     "ancestors" := VSlice [VStr "org/1"; VStr "folder/2"];
     "ancestry_path" := VStr "stale/0" ]}.

Definition assetPathOnly : gmap string value :=
  {[ "name" := VStr "a";
     "ancestry_path" := VStr "organization/1/folder/2" ]}.

Definition assetEmptyPath : gmap string value :=
  {[ "name" := VStr "a"; "ancestry_path" := VStr EmptyString ]}.

Definition assetNoAncestry : gmap string value :=
  {[ "name" := VStr "a"; "asset_type" := VStr "storage.googleapis.com/Bucket" ]}.

Definition bucketAsset : gmap string value :=
  {[ "name" := VStr "//storage.googleapis.com/my-bucket";
     "asset_type" := VStr "storage.googleapis.com/Bucket";
     "ancestry_path" := VStr "organization/1/project/2" ]}.

Definition bucketAssetNoName : gmap string value :=
  {[ "asset_type" := VStr "storage.googleapis.com/Bucket";
     "ancestry_path" := VStr "organization/1/project/2" ]}.

Definition podObject : gmap string value :=
  {[ "kind" := VStr "Pod";
     "metadata" := VMap {[ "name" := VStr "nginx" ]} ]}.

Definition podAsset : gmap string value :=
  {[ "name" := VStr "//container.googleapis.com/projects/p/clusters/c/k8s/pods/nginx";
     "asset_type" := VStr "k8s.io/Pod";
     "ancestry_path" := VStr "organization/1/project/2";
     "resource" := VMap {[ "data" := VMap podObject ]} ]}.

Definition podAssetNoName : gmap string value :=
  {[ "asset_type" := VStr "k8s.io/Pod";
     "ancestry_path" := VStr "organization/1/project/2";
     "resource" := VMap {[ "data" := VMap podObject ]} ]}.

(** Terraform planned changes. *)
Definition plannedChange : gmap string value :=
  {[ "address" := VStr "google_storage_bucket.b";
     "name" := VStr "b";
     "type" := VStr "google_storage_bucket";
     "change" := VMap ∅ ]}.

Definition plannedChangeNoAddress : gmap string value :=
  {[ "name" := VStr "b";
     "type" := VStr "google_storage_bucket";
     "change" := VMap ∅ ]}.

(** A constraint of kind [A]. *)
Definition constraintA : gmap string value := {[ "kind" := VStr "A" ]}.

End Sample.

(** ** Construction from policy sources *)

(** The policy source loader of [pkg/gcv/configs], whose sources are not part
    of this development: it reads policy files, or parses their contents,
    into a [Configuration]. *)
Class ConfigLoader {Eng : Engine} := {
  PolicyFile : Type;                                      (* *configs.PolicyFile *)
  NewConfiguration : list string -> string -> Configuration + error;
  LoadUnstructuredFromContents :
    list PolicyFile -> list (gmap string value) + error;
  NewConfigurationFromContents :
    list (gmap string value) -> list string -> Configuration + error;
}.

Section Construction.
Context {Eng : Engine} {Ldr : ConfigLoader}.

Local Notation "'let*' x := c 'in' k" := (bind c (fun x => k))
  (at level 10, x binder, c at level 100, k at level 200).

Definition NewValidatorConfig (policyPaths : list string)
    (policyLibraryPath : string) : Configuration + error :=
  if Nat.eqb (length policyPaths) 0 then
    inr (ErrMsg
      "No policy path set, provide an option to set the policy path gcv.PolicyPath")
  else if String.eqb policyLibraryPath EmptyString then
    inr (ErrMsg "No policy library set")
  else NewConfiguration policyPaths policyLibraryPath.

Definition NewValidator (policyPaths : list string) (policyLibraryPath : string)
    (opts : list Option) : M Validator :=
  let* config := lift (NewValidatorConfig policyPaths policyLibraryPath) in
  NewValidatorFromConfig config opts.

Definition NewValidatorFromContents (policyFiles : list PolicyFile)
    (policyLibrary : list string) (opts : list Option) : M Validator :=
  if Nat.eqb (length policyFiles) 0 then
    fail (ErrMsg "No policy constraints provided")
  else if Nat.eqb (length policyLibrary) 0 then
    fail (ErrMsg "No policy library provided")
  else
    let* unstructuredObjects := lift (LoadUnstructuredFromContents policyFiles) in
    let* config :=
      lift (NewConfigurationFromContents unstructuredObjects policyLibrary) in
    NewValidatorFromConfig config opts.

(** *** Specification-side definitions *)

(** The client that [newCFClient] starts from, when the driver and the client
    can be created. *)
Definition freshClient (targetHandler : handler) (opts : list Option)
  : option client :=
  match localNew (driverArgs (bootOptions targetHandler opts)) with
  | inl d =>
      match cfNewClient (clientArgs (bootOptions targetHandler opts) ++ [Driver d]) with
      | inl c => Some c
      | inr _ => None
      end
  | inr _ => None
  end.

(** The calls of one domain's bootstrap when nothing fails: every template,
    then every constraint. *)
Definition domainEvents (ts : list template) (cs : list (gmap string value))
  : list event :=
  (EvAddTemplate <$> ts) ++ (EvAddConstraint <$> cs).

(** The client once every template and every constraint has been added. *)
Definition bootstrapped (c : client) (ts : list template)
    (cs : list (gmap string value)) : client :=
  clientAfterConstraints (clientAfterTemplates c ts) cs.


End Construction.

(** A loader for the reference collaborators: policy files are the kinds of
    the templates they declare. *)
Module SampleConfig.

Definition configOf (kinds : list (@template Sample.engine))
  : Configuration (Eng := Sample.engine) :=
  {| GCPTemplates := kinds; GCPConstraints := [];
     K8STemplates := []; K8SConstraints := [];
     TFTemplates := []; TFConstraints := [] |}.

#[export] Instance loader : ConfigLoader (Eng := Sample.engine) := {|
  PolicyFile := string;
  NewConfiguration paths _ := inl (configOf paths);
  LoadUnstructuredFromContents files :=
    inl ((fun kind => {[ "kind" := VStr kind ]}) <$> files);
  NewConfigurationFromContents objects _ := inl (configOf (Sample.kindOf <$> objects));
|}.

(** A stricter engine: the driver refuses an empty list of builtins, and a
    client refuses to review an object that names neither a kind nor an asset
    type. *)
Definition namesBuiltins (a : driverArg) : bool :=
  match a with
  | DisableBuiltinsArg [] => false
  | _ => true
  end.

#[export] Instance strictEngine : Engine := {|
  driver := list driverArg;
  client := Sample.cfClient;
  template := string;
  responses := list string;
  localNew args :=
    if forallb namesBuiltins args then inl args
    else inr (ErrMsg "no builtin to disable");
  cfNewClient _ := inl {| Sample.kinds := []; Sample.loaded := [] |};
  cfAddTemplate := @cfAddTemplate Sample.engine;
  cfAddConstraint := @cfAddConstraint Sample.engine;
  cfReview c obj :=
    match obj !! "kind", obj !! "asset_type" with
    | None, None => inr (ErrMsg "object has neither kind nor asset type")
    | _, _ => inl (Sample.kindOf <$> Sample.loaded c)
    end;
  fmtTemplate t := t;
  fmtConstraint := Sample.kindOf;
|}.

(** The reference collaborators beside the stricter engine, with a decoder
    that knows the empty object. *)
#[export] Instance strictCollaborators : Collaborators (H := strictEngine) := {|
  AncestryPath := @AncestryPath _ Sample.collaborators;
  NormalizeAncestry := @NormalizeAncestry _ Sample.collaborators;
  IsK8S := @IsK8S _ Sample.collaborators;
  ConvertCAIToK8s := @ConvertCAIToK8s _ Sample.collaborators;
  tfHandleReview := @tfHandleReview _ Sample.collaborators;
  Asset := gmap string value;
  SanitizeAncestryPath a := inl a;
  ValidateAsset := @ValidateAsset _ Sample.collaborators;
  ConvertResourceViaJSONToInterface a := inl (VMap a);
  jsonUnmarshal data :=
    if String.eqb data "{}" then inl ∅
    else inr (ErrMsg "unexpected end of JSON input");
  newResultError _ _ := None;
  violation := string;
  toViolations _ _ _ _ resp := inl resp;
|}.

Definition strictValidator : Validator (Eng := strictEngine) := {|
  policyPaths := [];
  policyLibraryDir := EmptyString;
  gcpCFClient := {| Sample.kinds := []; Sample.loaded := [] |};
  k8sCFClient := {| Sample.kinds := []; Sample.loaded := [] |};
  tfCFClient := {| Sample.kinds := []; Sample.loaded := [] |};
|}.

Definition strictStore (m : gmap string value) : state (Eng := strictEngine) :=
  State {[ 1%positive := m ]} [].

(** Configurations with one template per domain. *)
Definition threeDomains (gcp k8s tf : @template Sample.engine)
  : Configuration (Eng := Sample.engine) :=
  {| GCPTemplates := [gcp]; GCPConstraints := [];
     K8STemplates := [k8s]; K8SConstraints := [];
     TFTemplates := [tf]; TFConstraints := [] |}.

(** An asset whose ancestors are not all strings. *)
Definition assetBadAncestors : gmap string value :=
  {[ "name" := VStr "a";
     "ancestors" := VSlice [VStr "org/1"; VNum 2];
     "ancestry_path" := VStr "organization/1" ]}.

(** A pod asset without resource data, which the converter refuses. *)
Definition podAssetNoData : gmap string value :=
  {[ "name" := VStr "pod";
     "asset_type" := VStr "k8s.io/Pod";
     "ancestry_path" := VStr "organization/1" ]}.

(** A pod of a GKE cluster as Cloud Asset Inventory exports it: the name
    carries the zone and the cluster, the resource its version and the
    object. *)
Definition gkePodObject : gmap string value :=
  {[ "apiVersion" := VStr "v1";
     "kind" := VStr "Pod";
     "metadata" := VMap {[ "name" := VStr "nginx";
                           "namespace" := VStr "default" ]} ]}.

Definition gkePodName : string :=
  "//container.googleapis.com/projects/my-project/zones/us-central1-a/clusters/my-cluster/k8s/namespaces/default/pods/nginx".

Definition gkePodAsset : gmap string value :=
  {[ "name" := VStr gkePodName;
     "asset_type" := VStr "k8s.io/Pod";
     "ancestry_path" := VStr "organizations/1/projects/2";
     "resource" := VMap {[ "version" := VStr "v1";
                           "data" := VMap gkePodObject ]} ]}.

(** A decoder for JSON objects whose members are all strings, written
    without blanks and without escapes. *)
Definition quoteChar : Ascii.ascii :=
  Ascii.Ascii false true false false false true false false.

(** The first character of a text. *)
Definition charOf (s : string) : Ascii.ascii :=
  match s with
  | String c _ => c
  | EmptyString => Ascii.zero
  end.

(** The characters up to the closing quote, and what follows it. *)
Fixpoint readString (s acc : string) : option (string * string) :=
  match s with
  | EmptyString => None
  | String c rest =>
      if Ascii.eqb c quoteChar then Some (acc, rest)
      else readString rest (acc +:+ String c EmptyString)%string
  end.

(** An opening quote and then a string. *)
Definition readQuoted (s : string) : option (string * string) :=
  match s with
  | String c rest => if Ascii.eqb c quoteChar then readString rest EmptyString else None
  | EmptyString => None
  end.

(** The members after the opening brace, up to the closing brace that ends
    the text. *)
Fixpoint readMembers (fuel : nat) (s : string) (m : gmap string value)
  : option (gmap string value) :=
  match fuel with
  | O => None
  | S fuel =>
      match readQuoted s with
      | Some (k, String colon rest) =>
          if Ascii.eqb colon (charOf ":") then
            match readQuoted rest with
            | Some (v, String sep rest') =>
                if Ascii.eqb sep (charOf ",") then readMembers fuel rest' (<[k := VStr v]> m)
                else if Ascii.eqb sep (charOf "}") then
                  match rest' with
                  | EmptyString => Some (<[k := VStr v]> m)
                  | _ => None
                  end
                else None
            | _ => None
            end
          else None
      | _ => None
      end
  end.

Definition decodeObject (data : string) : gmap string value + error :=
  match data with
  | String open rest =>
      if Ascii.eqb open (charOf "{") then
        match rest with
        | String close EmptyString =>
            if Ascii.eqb close (charOf "}") then inl ∅
            else inr (ErrMsg "invalid character looking for beginning of object key string")
        | _ =>
            match readMembers (String.length rest) rest ∅ with
            | Some m => inl m
            | None => inr (ErrMsg "unexpected end of JSON input")
            end
        end
      else inr (ErrMsg "cannot unmarshal into Go value of type map[string]interface {}")
  | EmptyString => inr (ErrMsg "unexpected end of JSON input")
  end.

(** The reference collaborators with that decoder. *)
#[export] Instance decodingCollaborators : Collaborators (H := Sample.engine) :=
  @Build_Collaborators Sample.engine
    (@AncestryPath _ Sample.collaborators)
    (@NormalizeAncestry _ Sample.collaborators)
    (@IsK8S _ Sample.collaborators)
    (@ConvertCAIToK8s _ Sample.collaborators)
    (@tfHandleReview _ Sample.collaborators)
    (gmap string value)
    (fun a => inl a)
    (@ValidateAsset _ Sample.collaborators)
    (fun a => inl (VMap a))
    decodeObject
    (fun _ _ => None)
    string
    (fun _ _ _ _ resp => inl resp).

(** One member of a JSON object, and the text of the bucket asset. *)
Definition jsonMember (k v : string) : string :=
  (String quoteChar k +:+ String quoteChar ":" +:+
   String quoteChar v +:+ String quoteChar EmptyString)%string.

Definition bucketText : string :=
  ("{" +:+ jsonMember "name" "//storage.googleapis.com/my-bucket" +:+ ","
       +:+ jsonMember "asset_type" "storage.googleapis.com/Bucket" +:+ ","
       +:+ jsonMember "ancestry_path" "organization/1/project/2" +:+ "}")%string.

End SampleConfig.

(** * Properties *)

(** ** The accessors on a single field *)

Lemma stringSlice_strings fields l acc ss :
  asStrings l = Some ss ->
  stringSlice fields l acc = (acc ++ ss, true, None).
Proof.
  revert acc ss. induction l as [|v l IH]; intros acc ss Hl; simpl in *.
  - injection Hl as <-. by rewrite app_nil_r.
  - destruct v; try discriminate.
    destruct (asStrings l) as [ss'|] eqn:E; [|discriminate].
    injection Hl as <-. rewrite (IH _ ss') by reflexivity.
    by rewrite <- app_assoc.
Qed.

Lemma stringSlice_not_strings fields l acc :
  asStrings l = None ->
  exists v, stringSlice fields l acc = ([], false, Some (ErrAccessor fields v "string")).
Proof.
  revert acc. induction l as [|v l IH]; intros acc Hl; simpl in *; [discriminate|].
  destruct v; eauto.
  destruct (asStrings l); [discriminate|]. by apply IH.
Qed.

Lemma NestedFieldNoCopy_single m k :
  NestedFieldNoCopy m [k] =
  match m !! k with
  | Some v => (v, true, None)
  | None => (VNil, false, None)
  end.
Proof. unfold NestedFieldNoCopy. simpl. by destruct (m !! k). Qed.

Lemma NestedStringSlice_ancestors m anc :
  ancestorsOf m = Some anc ->
  NestedStringSlice m [ancestorSliceKey] = (anc, true, None).
Proof.
  unfold ancestorsOf, NestedStringSlice. rewrite NestedFieldNoCopy_single.
  destruct (m !! ancestorSliceKey) as [[]|]; try discriminate.
  intros H. by rewrite (stringSlice_strings _ _ [] anc).
Qed.

Lemma NestedStringSlice_no_ancestors m :
  ancestorsOf m = None ->
  exists err, NestedStringSlice m [ancestorSliceKey] = ([], false, err).
Proof.
  unfold ancestorsOf, NestedStringSlice. rewrite NestedFieldNoCopy_single.
  destruct (m !! ancestorSliceKey) as [[]|]; eauto.
  intros H. destruct (stringSlice_not_strings [ancestorSliceKey] l [] H) as [v ->].
  eauto.
Qed.

Lemma NestedString_single m k :
  NestedString m [k] =
  match m !! k with
  | Some (VStr s) => (s, true, None)
  | Some v => (EmptyString, false, Some (ErrAccessor [k] v "string"))
  | None => (EmptyString, false, None)
  end.
Proof.
  unfold NestedString. rewrite NestedFieldNoCopy_single.
  by destruct (m !! k) as [[]|].
Qed.

Lemma NestedString_path m p :
  ancestryPathOf m = Some p ->
  NestedString m [ancestryPathKey] = (p, true, None).
Proof.
  unfold ancestryPathOf. rewrite NestedString_single.
  destruct (m !! ancestryPathKey) as [[]|]; congruence.
Qed.

Lemma NestedString_no_path m :
  ancestryPathOf m = None ->
  exists err, NestedString m [ancestryPathKey] = (EmptyString, false, err).
Proof.
  unfold ancestryPathOf. rewrite NestedString_single.
  destruct (m !! ancestryPathKey) as [[]|]; try discriminate; eauto.
Qed.

(** The accessors agree with the well-typedness predicates in both
    directions. *)
Lemma NestedStringSlice_found_iff m anc :
  NestedStringSlice m [ancestorSliceKey] = (anc, true, None) <->
  ancestorsOf m = Some anc.
Proof.
  split; [|apply NestedStringSlice_ancestors].
  destruct (ancestorsOf m) as [anc'|] eqn:E.
  - rewrite (NestedStringSlice_ancestors _ _ E). congruence.
  - destruct (NestedStringSlice_no_ancestors _ E) as [err ->]. discriminate.
Qed.

Lemma NestedString_found_iff m p :
  NestedString m [ancestryPathKey] = (p, true, None) <->
  ancestryPathOf m = Some p.
Proof.
  split; [|apply NestedString_path].
  destruct (ancestryPathOf m) as [p'|] eqn:E.
  - rewrite (NestedString_path _ _ E). congruence.
  - destruct (NestedString_no_path _ E) as [err ->]. discriminate.
Qed.

Section OrchestratorProperties.
Context {Eng : Engine} {Col : Collaborators}.

(** ** Ancestry resolution *)

Lemma fixAncestry_ancestors l st m anc :
  heap st !! l = Some m ->
  ancestorsOf m = Some anc ->
  fixAncestry l st =
    (Ok tt, updated st l (<[ancestryPathKey := VStr (AncestryPath anc)]> m)).
Proof.
  intros Hl Ha. unfold fixAncestry, bind, load. rewrite Hl. simpl.
  rewrite (NestedStringSlice_ancestors _ _ Ha).
  unfold setEntry. by rewrite Hl.
Qed.

Lemma fixAncestry_path l st m p :
  heap st !! l = Some m ->
  ancestorsOf m = None ->
  ancestryPathOf m = Some p ->
  fixAncestry l st =
    (Ok tt, updated st l (<[ancestryPathKey := VStr (NormalizeAncestry p)]> m)).
Proof.
  intros Hl Ha Hp. unfold fixAncestry, bind, load. rewrite Hl. simpl.
  destruct (NestedStringSlice_no_ancestors _ Ha) as [err ->].
  rewrite (NestedString_path _ _ Hp).
  unfold setEntry. by rewrite Hl.
Qed.

Lemma fixAncestry_missing l st :
  let m := default ∅ (heap st !! l) in
  ancestorsOf m = None ->
  ancestryPathOf m = None ->
  fixAncestry l st =
    (Err (ErrFmtV "asset missing ancestry information: " (VMap m)), st).
Proof.
  intros m Ha Hp. unfold fixAncestry, bind, load. simpl. fold m.
  destruct (NestedStringSlice_no_ancestors _ Ha) as [err ->].
  destruct (NestedString_no_path _ Hp) as [err' ->].
  reflexivity.
Qed.

(** A nil map has neither representation. *)
Lemma fixAncestry_nil_map l st :
  heap st !! l = None ->
  fixAncestry l st =
    (Err (ErrFmtV "asset missing ancestry information: " (VMap ∅)), st).
Proof.
  intros Hl. pose proof (fixAncestry_missing l st) as H.
  rewrite Hl in H. by apply H.
Qed.

(** [fixAncestry] in one equation. *)
Lemma fixAncestry_resolved l st :
  fixAncestry l st =
    let m := default ∅ (heap st !! l) in
    match resolvedAncestry m with
    | Some s => (Ok tt, updated st l (<[ancestryPathKey := VStr s]> m))
    | None => (Err (ErrFmtV "asset missing ancestry information: " (VMap m)), st)
    end.
Proof.
  unfold resolvedAncestry. simpl.
  destruct (heap st !! l) as [m|] eqn:Hl; simpl.
  - destruct (ancestorsOf m) as [anc|] eqn:Ha.
    + by apply fixAncestry_ancestors.
    + destruct (ancestryPathOf m) as [p|] eqn:Hp.
      * by apply fixAncestry_path.
      * pose proof (fixAncestry_missing l st) as H. rewrite Hl in H. by apply H.
  - by apply fixAncestry_nil_map.
Qed.

(** C3: when the resource map holds a well-typed ancestors sequence,
    ancestry resolution succeeds and sets [ancestry_path] to the encoding
    [AncestryPath] of that sequence, whatever [ancestry_path] held before;
    no other map and no other field is touched and no client is called. *)
Theorem fixAncestry_sequence_precedence l st m anc :
  heap st !! l = Some m ->
  ancestorsOf m = Some anc ->
  exists st',
    fixAncestry l st = (Ok tt, st') /\
    heap st' !! l = Some (<[ancestryPathKey := VStr (AncestryPath anc)]> m) /\
    ancestryPathOf (content st' l) = Some (AncestryPath anc) /\
    (forall k, k <> ancestryPathKey ->
               content st' l !! k = m !! k) /\
    (forall l', l' <> l -> heap st' !! l' = heap st !! l') /\
    trace st' = trace st.
Proof.
  intros Hl Ha. eexists. split; [by apply fixAncestry_ancestors|].
  unfold content, updated; simpl. rewrite lookup_insert_eq. simpl.
  repeat split.
  - unfold ancestryPathOf. by rewrite lookup_insert_eq.
  - intros k Hk. by rewrite lookup_insert_ne.
  - intros l' Hl'. by rewrite lookup_insert_ne.
Qed.

(** The path string is only consulted when the ancestors are not usable. *)
Lemma resolvedAncestry_ancestors_win m anc :
  ancestorsOf m = Some anc -> resolvedAncestry m = Some (AncestryPath anc).
Proof. unfold resolvedAncestry. by intros ->. Qed.

(** What a successful resolution did. *)
Lemma fixAncestry_Ok_inv l st st' :
  fixAncestry l st = (Ok tt, st') ->
  exists m s,
    heap st !! l = Some m /\
    resolvedAncestry m = Some s /\
    st' = updated st l (<[ancestryPathKey := VStr s]> m).
Proof.
  rewrite fixAncestry_resolved. simpl.
  destruct (heap st !! l) as [m|] eqn:Hl; simpl.
  - destruct (resolvedAncestry m) as [s|] eqn:Hr; [|discriminate].
    intros [= <-]. by exists m, s.
  - unfold resolvedAncestry, ancestorsOf, ancestryPathOf.
    rewrite !lookup_empty. discriminate.
Qed.

(** C5 (amended): after a successful resolution the map carries a
    string-typed [ancestry_path] field holding what the encoders returned:
    [AncestryPath] of the ancestors, else [NormalizeAncestry] of the old path
    string.  [fixAncestry] adds no check of its own on that string, and it
    never succeeds leaving the field absent. *)
Theorem fixAncestry_success_carries_path l st st' :
  fixAncestry l st = (Ok tt, st') ->
  exists m s,
    heap st !! l = Some m /\
    resolvedAncestry m = Some s /\
    heap st' !! l = Some (<[ancestryPathKey := VStr s]> m) /\
    ancestryPathOf (content st' l) = Some s.
Proof.
  intros H. apply fixAncestry_Ok_inv in H as (m & s & Hl & Hr & ->).
  exists m, s. unfold content, updated; simpl.
  rewrite lookup_insert_eq. simpl. repeat split; [done..|].
  unfold ancestryPathOf. by rewrite lookup_insert_eq.
Qed.

(** Resolution succeeds exactly when one of the two forms is well-typed. *)
Lemma fixAncestry_success_iff l st :
  (exists st', fixAncestry l st = (Ok tt, st')) <->
  exists m, heap st !! l = Some m /\ is_Some (resolvedAncestry m).
Proof.
  split.
  - intros [st' H]. apply fixAncestry_Ok_inv in H.
    destruct H as (m & s & Hl & Hr & _). exists m. by rewrite Hr.
  - intros (m & Hl & s & Hr). rewrite fixAncestry_resolved, Hl. simpl.
    rewrite Hr. eauto.
Qed.

(** An empty path string goes through whenever the normaliser keeps it
    empty. *)
Lemma fixAncestry_keeps_empty_path l st m :
  NormalizeAncestry EmptyString = EmptyString ->
  heap st !! l = Some m ->
  ancestorsOf m = None ->
  ancestryPathOf m = Some EmptyString ->
  fixAncestry l st =
    (Ok tt, updated st l (<[ancestryPathKey := VStr EmptyString]> m)).
Proof.
  intros HN Hl Ha Hp. rewrite (fixAncestry_path l st m EmptyString) by done.
  by rewrite HN.
Qed.

(** C7: when the resource map holds neither a well-typed ancestors sequence
    nor a well-typed path string, [ReviewUnmarshalledJSON] returns the
    missing-ancestry error naming the input; there is no Result, the store is
    unchanged and no client has been called. *)
Theorem ReviewUnmarshalledJSON_missing_ancestry v l st m :
  content st l = m ->
  ancestorsOf m = None ->
  ancestryPathOf m = None ->
  ReviewUnmarshalledJSON v l st =
    (Err (ErrFmtV "asset missing ancestry information: " (VMap m)), st).
Proof.
  intros <- Ha Hp. unfold ReviewUnmarshalledJSON, bind.
  by rewrite (fixAncestry_missing l st Ha Hp).
Qed.

(** C8: on a map whose only ancestry representation is the path string,
    with a normaliser that is idempotent on that string, a second resolution
    succeeds like the first and leaves the store, hence [ancestry_path], as
    the first one left it. *)
Theorem fixAncestry_idempotent_on_path l st m p :
  heap st !! l = Some m ->
  ancestorsOf m = None ->
  ancestryPathOf m = Some p ->
  normalizeIdempotentAt p ->
  exists st1,
    fixAncestry l st = (Ok tt, st1) /\
    fixAncestry l st1 = (Ok tt, st1) /\
    ancestryPathOf (content st1 l) = Some (NormalizeAncestry p).
Proof.
  intros Hl Ha Hp Hidem.
  set (m1 := <[ancestryPathKey := VStr (NormalizeAncestry p)]> m).
  assert (Ha1 : ancestorsOf m1 = None).
  { unfold ancestorsOf, m1. by rewrite lookup_insert_ne. }
  assert (Hp1 : ancestryPathOf m1 = Some (NormalizeAncestry p)).
  { unfold ancestryPathOf, m1. by rewrite lookup_insert_eq. }
  exists (updated st l m1). split; [by apply fixAncestry_path|]. split.
  - rewrite (fixAncestry_path l (updated st l m1) m1 (NormalizeAncestry p));
      [|by unfold updated; simpl; rewrite lookup_insert_eq|done|done].
    rewrite Hidem. unfold updated, m1; simpl.
    by rewrite !insert_insert_eq.
  - unfold content, updated; simpl. by rewrite lookup_insert_eq.
Qed.

(** ** Dispatch *)

Lemma content_updated st l m : content (updated st l m) l = m.
Proof. unfold content, updated; simpl. by rewrite lookup_insert_eq. Qed.

Lemma content_updated_ne st k l m :
  k <> l -> content (updated st k m) l = content st l.
Proof. intros Hk. unfold content, updated; simpl. by rewrite lookup_insert_ne. Qed.

Lemma content_logged st e l : content (logged st e) l = content st l.
Proof. reflexivity. Qed.

Lemma Review_eq target c l st :
  Review target c l st =
    (match cfReview c (content st l) with
     | inl resp => Ok resp
     | inr e => Err e
     end, logged st (EvReview target l (content st l))).
Proof.
  unfold Review, bind, load, log, lift. simpl. fold (content st l).
  by destruct (cfReview c (content st l)).
Qed.

(** The GCP path in one equation: the asset itself is reviewed and recorded
    twice in the result. *)
Lemma reviewGCPResource_eq v l st :
  reviewGCPResource v l st =
    let m := content st l in
    (match cfReview (gcpCFClient v) m with
     | inr e =>
         Err (ErrWrap "GCP target Constraint Framework review call failed: " (Some e))
     | inl resp =>
         match nameOf m with
         | None => Panic (PanicTypeAssertion (index m "name") "string")
         | Some name =>
             match newResultError GCPTarget resp with
             | Some e => Err e
             | None => Ok {| Target := GCPTarget; Name := name;
                             InputResource := l; ReviewResource := l;
                             Responses := resp |}
             end
         end
     end, logged st (EvReview GCPTarget l m)).
Proof.
  unfold reviewGCPResource, bind, wrapErr. rewrite Review_eq. simpl.
  destruct (cfReview (gcpCFClient v) (content st l)) as [resp|e]; [|done].
  unfold load. simpl. fold (content st l).
  unfold nameOf, stringAt, index, NewResult.
  destruct (content st l !! "name") as [[]|]; simpl; try done.
  unfold ret, fail. by destruct (newResultError GCPTarget resp).
Qed.

(** The Kubernetes path in one equation: the converted object is a new map,
    it is what the client reviews, and the identifier is still read from the
    asset. *)
Lemma reviewK8SResource_eq v l st :
  is_Some (heap st !! l) ->
  reviewK8SResource v l st =
    let m := content st l in
    match ConvertCAIToK8s m with
    | inr e =>
        (Err (ErrWrap "failed to convert asset to admission request: " (Some e)), st)
    | inl object =>
        let k := fresh (dom (heap st)) in
        (match cfReview (k8sCFClient v) object with
         | inr e =>
             Err (ErrWrap "K8S target Constraint Framework review call failed: " (Some e))
         | inl resp =>
             match nameOf m with
             | None => Panic (PanicTypeAssertion (index m "name") "string")
             | Some name =>
                 match newResultError K8sValidationTarget resp with
                 | Some e => Err e
                 | None => Ok {| Target := K8sValidationTarget; Name := name;
                                 InputResource := l; ReviewResource := k;
                                 Responses := resp |}
                 end
             end
         end, logged (updated st k object) (EvReview K8sValidationTarget k object))
    end.
Proof.
  intros Hl. unfold reviewK8SResource, bind, wrapErr, load, lift. simpl.
  fold (content st l).
  destruct (ConvertCAIToK8s (content st l)) as [object|e]; [|done]. simpl.
  unfold alloc. simpl.
  set (k := fresh (dom (heap st))).
  assert (Hk : k <> l).
  { intros Heq. apply (is_fresh (dom (heap st))). fold k. rewrite Heq.
    by apply elem_of_dom. }
  rewrite Review_eq. fold (updated st k object).
  rewrite content_updated. simpl.
  destruct (cfReview (k8sCFClient v) object) as [resp|e]; [|done].
  match goal with |- context [default ∅ (heap ?s !! l)] =>
    fold (content s l); rewrite (content_logged _ _ l)
  end.
  rewrite content_updated_ne by done.
  unfold nameOf, stringAt, index, NewResult.
  destruct (content st l !! "name") as [[]|]; simpl; try done.
  unfold ret, fail. by destruct (newResultError K8sValidationTarget resp).
Qed.

(** After a successful resolution the classifier runs on the resolved map. *)
Lemma ReviewUnmarshalledJSON_resolved v l st m s :
  heap st !! l = Some m ->
  resolvedAncestry m = Some s ->
  ReviewUnmarshalledJSON v l st =
    let m' := <[ancestryPathKey := VStr s]> m in
    if IsK8S m' then reviewK8SResource v l (updated st l m')
    else reviewGCPResource v l (updated st l m').
Proof.
  intros Hl Hr. unfold ReviewUnmarshalledJSON, bind.
  rewrite fixAncestry_resolved, Hl. simpl. rewrite Hr.
  unfold load. simpl. rewrite lookup_insert_eq. simpl.
  by destruct (IsK8S (<[ancestryPathKey:=VStr s]> m)).
Qed.

(** What a successful review did. *)
Lemma ReviewUnmarshalledJSON_Ok_inv v l st r st' :
  ReviewUnmarshalledJSON v l st = (Ok r, st') ->
  exists m s name resp,
    let m' := <[ancestryPathKey := VStr s]> m in
    heap st !! l = Some m /\
    resolvedAncestry m = Some s /\
    content st' l = m' /\
    nameOf m' = Some name /\
    if IsK8S m' then
      exists object,
        let k := fresh (dom (heap (updated st l m'))) in
        ConvertCAIToK8s m' = inl object /\
        cfReview (k8sCFClient v) object = inl resp /\
        r = {| Target := K8sValidationTarget; Name := name;
               InputResource := l; ReviewResource := k; Responses := resp |} /\
        k <> l /\
        st' = logged (updated (updated st l m') k object)
                (EvReview K8sValidationTarget k object)
    else
      cfReview (gcpCFClient v) m' = inl resp /\
      r = {| Target := GCPTarget; Name := name;
             InputResource := l; ReviewResource := l; Responses := resp |} /\
      st' = logged (updated st l m') (EvReview GCPTarget l m').
Proof.
  intros Hrev.
  destruct (heap st !! l) as [m|] eqn:Hl; cycle 1.
  { unfold ReviewUnmarshalledJSON, bind in Hrev.
    by rewrite (fixAncestry_nil_map l st Hl) in Hrev. }
  destruct (resolvedAncestry m) as [s|] eqn:Hr; cycle 1.
  { unfold ReviewUnmarshalledJSON, bind in Hrev.
    rewrite fixAncestry_resolved, Hl in Hrev. simpl in Hrev.
    by rewrite Hr in Hrev. }
  rewrite (ReviewUnmarshalledJSON_resolved v l st m s Hl Hr) in Hrev.
  simpl in Hrev. set (m' := <[ancestryPathKey := VStr s]> m) in *.
  destruct (IsK8S m') eqn:Hk.
  - rewrite reviewK8SResource_eq in Hrev
      by (unfold updated; simpl; rewrite lookup_insert_eq; eauto).
    simpl in Hrev. rewrite content_updated in Hrev.
    destruct (ConvertCAIToK8s m') as [object|e] eqn:Hc; [|discriminate].
    destruct (cfReview (k8sCFClient v) object) as [resp|e] eqn:Hrv; [|discriminate].
    destruct (nameOf m') as [name|] eqn:Hn; [|discriminate].
    destruct (newResultError K8sValidationTarget resp); [discriminate|].
    injection Hrev as <- <-.
    set (k := fresh (dom (<[l:=m']> (heap st)))).
    assert (Hkl : k <> l).
    { intros Heq. apply (is_fresh (dom (<[l:=m']> (heap st)))). fold k.
      rewrite Heq. apply elem_of_dom. rewrite lookup_insert_eq. eauto. }
    exists m, s, name, resp. simpl. fold m'. rewrite Hk.
    repeat split; try done.
    + unfold content, logged, updated. simpl.
      rewrite lookup_insert_ne by done. by rewrite lookup_insert_eq.
    + exists object. repeat split; done.
  - rewrite reviewGCPResource_eq in Hrev. simpl in Hrev.
    rewrite content_updated in Hrev.
    destruct (cfReview (gcpCFClient v) m') as [resp|e] eqn:Hrv; [|discriminate].
    destruct (nameOf m') as [name|] eqn:Hn; [|discriminate].
    destruct (newResultError GCPTarget resp); [discriminate|].
    injection Hrev as <- <-.
    exists m, s, name, resp. simpl. fold m'. rewrite Hk.
    repeat split; try done.
    by rewrite content_logged, content_updated.
Qed.

Lemma nameOf_insert_path m s :
  nameOf (<[ancestryPathKey := VStr s]> m) = nameOf m.
Proof. unfold nameOf, stringAt. by rewrite lookup_insert_ne. Qed.

(** C1 (amended): when a resource classified as Kubernetes-shaped is
    reviewed successfully, the identifier in the Result is the string of the
    asset's own [name] field; the converted object is kept as the
    post-adaptation resource, in a map of its own, and its display name is
    not consulted. *)
Theorem ReviewUnmarshalledJSON_k8s_identifier v l st r st' :
  ReviewUnmarshalledJSON v l st = (Ok r, st') ->
  IsK8S (content st' l) = true ->
  nameOf (content st' l) = Some (Name r) /\
  Target r = K8sValidationTarget /\
  InputResource r = l /\
  ReviewResource r <> l /\
  exists object,
    ConvertCAIToK8s (content st' l) = inl object /\
    heap st' !! ReviewResource r = Some object.
Proof.
  intros Hrev Hk.
  destruct (ReviewUnmarshalledJSON_Ok_inv _ _ _ _ _ Hrev)
    as (m & s & name & resp & Hl & Hr & Hc & Hn & Hcase).
  simpl in *. rewrite Hc in Hk |- *. rewrite Hk in Hcase.
  destruct Hcase as (object & Hconv & Hrv & -> & Hne & ->). simpl.
  repeat split; try done.
  exists object. split; [done|]. by rewrite lookup_insert_eq.
Qed.

(** C9: when a resource classified as GCP-shaped is reviewed successfully,
    the pre-adaptation and the post-adaptation resource of the Result are
    the same map, the asset itself, which is also what the GCP client was
    given to review. *)
Theorem ReviewUnmarshalledJSON_gcp_same_map v l st r st' :
  ReviewUnmarshalledJSON v l st = (Ok r, st') ->
  IsK8S (content st' l) = false ->
  InputResource r = ReviewResource r /\
  InputResource r = l /\
  content st' (InputResource r) = content st' (ReviewResource r) /\
  Target r = GCPTarget /\
  trace st' = trace st ++ [EvReview GCPTarget l (content st' l)].
Proof.
  intros Hrev Hk.
  destruct (ReviewUnmarshalledJSON_Ok_inv _ _ _ _ _ Hrev)
    as (m & s & name & resp & Hl & Hr & Hc & Hn & Hcase).
  simpl in *. rewrite Hc in Hk |- *. rewrite Hk in Hcase.
  destruct Hcase as (Hrv & -> & ->). by simpl.
Qed.

(** Without a string [name] the review cannot produce a Result: once the
    client has answered, the unchecked assertion on [asset["name"]] panics. *)
Lemma ReviewUnmarshalledJSON_no_name v l st m s :
  heap st !! l = Some m ->
  resolvedAncestry m = Some s ->
  nameOf m = None ->
  let m' := <[ancestryPathKey := VStr s]> m in
  (IsK8S m' = false ->
   forall resp, cfReview (gcpCFClient v) m' = inl resp ->
     fst (ReviewUnmarshalledJSON v l st) =
       Panic (PanicTypeAssertion (index m "name") "string")) /\
  (IsK8S m' = true ->
   forall object resp,
     ConvertCAIToK8s m' = inl object ->
     cfReview (k8sCFClient v) object = inl resp ->
     fst (ReviewUnmarshalledJSON v l st) =
       Panic (PanicTypeAssertion (index m "name") "string")).
Proof.
  intros Hl Hr Hn m'.
  assert (Hi : index m' "name" = index m "name").
  { unfold index, m'. by rewrite lookup_insert_ne. }
  assert (Hn' : nameOf m' = None).
  { unfold m'. by rewrite nameOf_insert_path. }
  rewrite (ReviewUnmarshalledJSON_resolved v l st m s Hl Hr). simpl. fold m'.
  split; intros Hk; rewrite Hk.
  - intros resp Hrv. rewrite reviewGCPResource_eq. simpl.
    rewrite content_updated. fold m'.
    by rewrite Hrv, Hn', Hi.
  - intros object resp Hc Hrv.
    rewrite reviewK8SResource_eq
      by (unfold updated; simpl; rewrite lookup_insert_eq; eauto).
    simpl. rewrite content_updated. fold m'.
    by rewrite Hc, Hrv, Hn', Hi.
Qed.

(** No Result is ever produced for a resource without a string [name]. *)
Lemma ReviewUnmarshalledJSON_Ok_has_name v l st r st' :
  ReviewUnmarshalledJSON v l st = (Ok r, st') ->
  nameOf (content st' l) = Some (Name r).
Proof.
  intros Hrev.
  destruct (ReviewUnmarshalledJSON_Ok_inv _ _ _ _ _ Hrev)
    as (m & s & name & resp & Hl & Hr & Hc & Hn & Hcase).
  simpl in *. rewrite Hc.
  destruct (IsK8S _).
  - by destruct Hcase as (object & _ & _ & -> & _).
  - by destruct Hcase as (_ & -> & _).
Qed.

(** ** The entry points that build the map themselves *)

Lemma ReviewJSON_eq v data st :
  ReviewJSON v data st =
    let l := fresh (dom (heap st)) in
    match jsonUnmarshal data with
    | inl m => ReviewUnmarshalledJSON v l (updated st l m)
    | inr e => (Err (ErrWrap "failed to unmarshal json: " (Some e)), updated st l ∅)
    end.
Proof.
  unfold ReviewJSON, bind at 1, alloc. simpl.
  unfold bind at 1, wrapErr, unmarshalInto.
  destruct (jsonUnmarshal data) as [m|e]; simpl; [|done].
  unfold updated. by rewrite insert_insert_eq.
Qed.

Lemma ReviewAsset_eq v asset st :
  ReviewAsset v asset st =
    match SanitizeAncestryPath asset with
    | inr e => (Err e, st)
    | inl asset' =>
        match ValidateAsset asset' with
        | Some e => (Err e, st)
        | None =>
            match ConvertResourceViaJSONToInterface asset' with
            | inr e => (Err e, st)
            | inl (VMap m) =>
                let l := fresh (dom (heap st)) in
                bind (ReviewUnmarshalledJSON v l) ToViolations (updated st l m)
            | inl x =>
                (Panic (PanicTypeAssertion x "map[string]interface {}"), st)
            end
        end
    end.
Proof.
  unfold ReviewAsset, bind at 1, lift at 1.
  destruct (SanitizeAncestryPath asset) as [asset'|e]; [|done]. simpl.
  destruct (ValidateAsset asset'); [done|].
  unfold bind at 1, lift at 1.
  destruct (ConvertResourceViaJSONToInterface asset') as [x|e]; [|done]. simpl.
  by destruct x.
Qed.

(** Missing ancestry information stops both before any client call. *)
Lemma ReviewJSON_missing_ancestry v data st m :
  jsonUnmarshal data = inl m ->
  ancestorsOf m = None ->
  ancestryPathOf m = None ->
  ReviewJSON v data st =
    (Err (ErrFmtV "asset missing ancestry information: " (VMap m)),
     updated st (fresh (dom (heap st))) m).
Proof.
  intros Hj Ha Hp. rewrite ReviewJSON_eq, Hj. simpl.
  unfold ReviewUnmarshalledJSON, bind.
  pose proof (fixAncestry_missing (fresh (dom (heap st)))
                (updated st (fresh (dom (heap st))) m)) as H.
  simpl in H. rewrite lookup_insert_eq in H. simpl in H.
  by rewrite (H Ha Hp).
Qed.

Lemma ReviewAsset_missing_ancestry v asset asset' st m :
  SanitizeAncestryPath asset = inl asset' ->
  ValidateAsset asset' = None ->
  ConvertResourceViaJSONToInterface asset' = inl (VMap m) ->
  ancestorsOf m = None ->
  ancestryPathOf m = None ->
  ReviewAsset v asset st =
    (Err (ErrFmtV "asset missing ancestry information: " (VMap m)),
     updated st (fresh (dom (heap st))) m).
Proof.
  intros Hs Hv Hc Ha Hp. rewrite ReviewAsset_eq, Hs, Hv, Hc. simpl.
  unfold ReviewUnmarshalledJSON, bind.
  pose proof (fixAncestry_missing (fresh (dom (heap st)))
                (updated st (fresh (dom (heap st))) m)) as H.
  simpl in H. rewrite lookup_insert_eq in H. simpl in H.
  by rewrite (H Ha Hp).
Qed.

(** ** The Terraform entry point *)

Lemma ReviewTFResourceChange_eq v l st :
  ReviewTFResourceChange v l st =
    let m := content st l in
    if tfHandled m then
      (match cfReview (tfCFClient v) m with
       | inr e =>
           Err (ErrWrap "TF target Constraint Framework review call failed: " (Some e))
       | inl resp =>
           match stringAt m "address" with
           | None => Panic (PanicTypeAssertion (index m "address") "string")
           | Some address =>
               match newResultError TFTarget resp with
               | Some e => Err e
               | None =>
                   match toViolations TFTarget address m m resp with
                   | inl vs => Ok vs
                   | inr e => Err e
                   end
               end
           end
       end, logged st (EvReview TFTarget l m))
    else (Err (ErrWrap "Unhandled resource: " (snd (tfHandleReview m))), st).
Proof.
  unfold ReviewTFResourceChange, tfHandled, bind at 1, load at 1. simpl.
  fold (content st l).
  destruct (tfHandleReview (content st l)) as [[handled converted] err]. simpl.
  destruct handled; simpl; [|done].
  unfold bind, wrapErr. rewrite Review_eq.
  destruct (cfReview (tfCFClient v) (content st l)) as [resp|e]; [|done].
  unfold load. simpl. fold (content st l).
  unfold stringAt, index, NewResult, ToViolations.
  destruct (content st l !! "address") as [[]|]; simpl; try done.
  destruct (newResultError TFTarget resp); [done|].
  unfold ret, bind, load, lift. simpl. fold (content st l).
  by destruct (toViolations TFTarget s (content st l) (content st l) resp).
Qed.

(** C6: with an adapter that recognises only inputs carrying an [address]
    field, a planned change without one makes [ReviewTFResourceChange] return
    the unhandled-resource error; the state is as before the call, so no
    client was asked to review and no violations exist. *)
Theorem ReviewTFResourceChange_without_address v l st :
  tfRecognisedHasAddress ->
  content st l !! "address" = None ->
  ReviewTFResourceChange v l st =
    (Err (ErrWrap "Unhandled resource: " (snd (tfHandleReview (content st l)))), st).
Proof.
  intros Hcontract Haddr. rewrite ReviewTFResourceChange_eq. simpl.
  destruct (tfHandled (content st l)) eqn:Hh; [|done].
  apply Hcontract in Hh. rewrite Haddr in Hh. by destruct Hh.
Qed.


(** ** Client bootstrapping *)

(** The store after a run of calls on a client. *)
Lemma logged_all_nil st : State (heap st) (trace st ++ []) = st.
Proof. destruct st. simpl. by rewrite app_nil_r. Qed.

(** The first loop tries every template, in order, and keeps every failure. *)
Lemma addTemplates_eq c ts acc st :
  addTemplates c ts acc st =
    (Ok (clientAfterTemplates c ts, acc ++ templateFailures c ts),
     State (heap st) (trace st ++ (EvAddTemplate <$> ts))).
Proof.
  revert c acc st. induction ts as [|t ts IH]; intros c acc st.
  - simpl. unfold ret, templateFailures. simpl.
    by rewrite app_nil_r, logged_all_nil.
  - simpl. unfold bind, log, templateFailures. simpl.
    destruct (cfAddTemplate c t) as [c1 [e|]]; simpl;
      rewrite IH; simpl; unfold multierror.Add, templateFailures;
      by rewrite <- !app_assoc.
Qed.

Lemma addConstraints_eq c cs acc st :
  addConstraints c cs acc st =
    (Ok (clientAfterConstraints c cs, acc ++ constraintFailures c cs),
     State (heap st) (trace st ++ (EvAddConstraint <$> cs))).
Proof.
  revert c acc st. induction cs as [|k cs IH]; intros c acc st.
  - simpl. unfold ret, constraintFailures. simpl.
    by rewrite app_nil_r, logged_all_nil.
  - simpl. unfold bind, log, constraintFailures. simpl.
    destruct (cfAddConstraint c k) as [c1 [e|]]; simpl;
      rewrite IH; simpl; unfold multierror.Add, constraintFailures;
      by rewrite <- !app_assoc.
Qed.

Lemma wrapErr_lift {A} msg (r : A + error) st :
  wrapErr msg (lift r) st =
    (match r with
     | inl a => Ok a
     | inr e => Err (ErrWrap msg (Some e))
     end, st).
Proof. by destruct r. Qed.

(** [newCFClient] in one equation. *)
Lemma newCFClient_eq h ts cs opts st :
  newCFClient h ts cs opts st =
    match localNew (driverArgs (bootOptions h opts)) with
    | inr e => (Err (ErrWrap "unable to create new driver: " (Some e)), st)
    | inl d =>
        match cfNewClient (clientArgs (bootOptions h opts) ++ [Driver d]) with
        | inr e =>
            (Err (ErrWrap "unable to set up Constraint Framework client: " (Some e)), st)
        | inl c =>
            match templateFailures c ts with
            | (_ :: _) as errs =>
                (Err (ErrMulti errs),
                 State (heap st) (trace st ++ (EvAddTemplate <$> ts)))
            | [] =>
                let c1 := clientAfterTemplates c ts in
                (match constraintFailures c1 cs with
                 | (_ :: _) as errs => Err (ErrMulti errs)
                 | [] => Ok (clientAfterConstraints c1 cs)
                 end,
                 State (heap st)
                   (trace st ++ (EvAddTemplate <$> ts) ++ (EvAddConstraint <$> cs)))
            end
        end
    end.
Proof.
  unfold newCFClient. fold (bootOptions h opts).
  unfold bind at 1. rewrite wrapErr_lift.
  destruct (localNew (driverArgs (bootOptions h opts))) as [d|e]; [|done].
  unfold bind at 1. rewrite wrapErr_lift.
  destruct (cfNewClient (clientArgs (bootOptions h opts) ++ [Driver d])) as [c|e];
    [|done].
  unfold bind at 1. rewrite addTemplates_eq. simpl.
  destruct (templateFailures c ts) as [|e errs]; simpl; [|done].
  unfold bind. rewrite addConstraints_eq. simpl.
  rewrite <- app_assoc.
  by destruct (constraintFailures (clientAfterTemplates c ts) cs).
Qed.

(** A template event is never a constraint event. *)
Lemma template_events_no_constraint (ts : list template) k :
  EvAddConstraint k ∉ (EvAddTemplate <$> ts).
Proof. intros Hin. apply list_elem_of_fmap in Hin as (t & Heq & _). discriminate. Qed.

(** Every template is tried exactly once, in order. *)
Lemma templateOutcomes_templates c ts : fst <$> templateOutcomes c ts = ts.
Proof.
  revert c. induction ts as [|t ts IH]; intros c; simpl; [done|].
  by rewrite IH.
Qed.

Lemma constraintOutcomes_constraints c cs : fst <$> constraintOutcomes c cs = cs.
Proof.
  revert c. induction cs as [|k cs IH]; intros c; simpl; [done|].
  by rewrite IH.
Qed.

(** The aggregated error has one entry per failed template, and only those. *)
Lemma templateFailures_elem c ts e :
  e ∈ templateFailures c ts <->
  exists t err, (t, Some err) ∈ templateOutcomes c ts /\
                e = ErrWrapV "failed to add template " (fmtTemplate t) err.
Proof.
  unfold templateFailures. rewrite list_elem_of_omap. split.
  - intros ([t [err|]] & Hin & Hf); unfold templateFailure in Hf; simpl in Hf;
      [|discriminate].
    injection Hf as <-. eauto.
  - intros (t & err & Hin & ->). by exists (t, Some err).
Qed.

Lemma constraintFailures_elem c cs e :
  e ∈ constraintFailures c cs <->
  exists k err, (k, Some err) ∈ constraintOutcomes c cs /\
                e = ErrWrapV "failed to add constraint " (fmtConstraint k) err.
Proof.
  unfold constraintFailures. rewrite list_elem_of_omap. split.
  - intros ([k [err|]] & Hin & Hf); unfold constraintFailure in Hf; simpl in Hf;
      [|discriminate].
    injection Hf as <-. eauto.
  - intros (k & err & Hin & ->). by exists (k, Some err).
Qed.

Lemma templateFailures_nil c ts :
  templateFailures c ts = [] <->
  Forall (fun o => snd o = None) (templateOutcomes c ts).
Proof.
  rewrite Forall_forall. split.
  - intros Hnil [t [err|]] Hin; [|done]. exfalso.
    assert (H : ErrWrapV "failed to add template " (fmtTemplate t) err
                ∈ templateFailures c ts) by (apply templateFailures_elem; eauto).
    rewrite Hnil in H. by apply not_elem_of_nil in H.
  - intros Hall. destruct (templateFailures c ts) as [|e errs] eqn:E; [done|].
    assert (H : e ∈ templateFailures c ts) by (rewrite E; left).
    apply templateFailures_elem in H as (t & err & Hin & _).
    by apply Hall in Hin.
Qed.

Lemma constraintFailures_nil c cs :
  constraintFailures c cs = [] <->
  Forall (fun o => snd o = None) (constraintOutcomes c cs).
Proof.
  rewrite Forall_forall. split.
  - intros Hnil [k [err|]] Hin; [|done]. exfalso.
    assert (H : ErrWrapV "failed to add constraint " (fmtConstraint k) err
                ∈ constraintFailures c cs) by (apply constraintFailures_elem; eauto).
    rewrite Hnil in H. by apply not_elem_of_nil in H.
  - intros Hall. destruct (constraintFailures c cs) as [|e errs] eqn:E; [done|].
    assert (H : e ∈ constraintFailures c cs) by (rewrite E; left).
    apply constraintFailures_elem in H as (k & err & Hin & _).
    by apply Hall in Hin.
Qed.

(** C4: once the driver and the client exist, a bootstrap in which some
    template fails to load returns the aggregated error with an entry for
    every failed template, after trying every template and without a single
    [AddConstraint] call; and a handle is returned only when every template
    and every constraint loaded. *)
Theorem newCFClient_all_or_nothing h ts cs opts st d c :
  localNew (driverArgs (bootOptions h opts)) = inl d ->
  cfNewClient (clientArgs (bootOptions h opts) ++ [Driver d]) = inl c ->
  ((exists t err, (t, Some err) ∈ templateOutcomes c ts) ->
   newCFClient h ts cs opts st =
     (Err (ErrMulti (templateFailures c ts)),
      State (heap st) (trace st ++ (EvAddTemplate <$> ts))) /\
   (forall t err, (t, Some err) ∈ templateOutcomes c ts ->
      ErrWrapV "failed to add template " (fmtTemplate t) err
        ∈ templateFailures c ts) /\
   (forall k, EvAddConstraint k ∈ trace (snd (newCFClient h ts cs opts st)) ->
              EvAddConstraint k ∈ trace st)) /\
  (forall c' st', newCFClient h ts cs opts st = (Ok c', st') ->
     Forall (fun o => snd o = None) (templateOutcomes c ts) /\
     Forall (fun o => snd o = None)
       (constraintOutcomes (clientAfterTemplates c ts) cs) /\
     c' = clientAfterConstraints (clientAfterTemplates c ts) cs /\
     trace st' = trace st ++ (EvAddTemplate <$> ts) ++ (EvAddConstraint <$> cs)).
Proof.
  intros Hd Hc. rewrite newCFClient_eq, Hd, Hc. split.
  - intros (t & err & Hin).
    assert (Hne : ErrWrapV "failed to add template " (fmtTemplate t) err
                  ∈ templateFailures c ts) by (apply templateFailures_elem; eauto).
    repeat split.
    + destruct (templateFailures c ts); [by apply not_elem_of_nil in Hne|done].
    + intros t' err' Hin'. apply templateFailures_elem; eauto.
    + intros k. destruct (templateFailures c ts);
        [by apply not_elem_of_nil in Hne|]. simpl.
      rewrite elem_of_app. intros [Hk|Hk]; [done|].
      by apply template_events_no_constraint in Hk.
  - intros c' st' Hok.
    destruct (templateFailures c ts) eqn:Et; [|discriminate].
    simpl in Hok.
    destruct (constraintFailures (clientAfterTemplates c ts) cs) eqn:Ec;
      [|discriminate].
    injection Hok as <- <-. repeat split.
    + by apply templateFailures_nil.
    + by apply constraintFailures_nil.
Qed.

(** A failure of one domain fails the construction, naming the domain. *)
Lemma NewValidatorFromConfig_gcp_failure config opts st e st' :
  newCFClient GCPTarget (GCPTemplates config) (GCPConstraints config) opts st
    = (Err e, st') ->
  NewValidatorFromConfig config opts st =
    (Err (ErrWrap "unable to set up GCP Constraint Framework client: " (Some e)), st').
Proof.
  intros H. unfold NewValidatorFromConfig, bind at 1, wrapErr at 1. by rewrite H.
Qed.

End OrchestratorProperties.

(** * Further properties of the package *)

Section Bootstrapping.
Context {Eng : Engine}.

(** ** Options *)



(** ** One domain *)

Lemma newCFClient_fresh h ts cs opts st c :
  freshClient h opts = Some c ->
  newCFClient h ts cs opts st =
    match templateFailures c ts with
    | (_ :: _) as errs =>
        (Err (ErrMulti errs), State (heap st) (trace st ++ (EvAddTemplate <$> ts)))
    | [] =>
        (match constraintFailures (clientAfterTemplates c ts) cs with
         | (_ :: _) as errs => Err (ErrMulti errs)
         | [] => Ok (bootstrapped c ts cs)
         end, State (heap st) (trace st ++ domainEvents ts cs))
    end.
Proof.
  unfold freshClient. intros Hf. rewrite newCFClient_eq.
  destruct (localNew (driverArgs (bootOptions h opts))) as [d|e]; [|discriminate].
  destruct (cfNewClient (clientArgs (bootOptions h opts) ++ [Driver d]))
    as [c'|e]; [|discriminate].
  by injection Hf as ->.
Qed.

(** What a successful bootstrap did. *)
Lemma newCFClient_Ok_inv h ts cs opts st c' st' :
  newCFClient h ts cs opts st = (Ok c', st') ->
  exists c,
    freshClient h opts = Some c /\
    templateFailures c ts = [] /\
    constraintFailures (clientAfterTemplates c ts) cs = [] /\
    c' = bootstrapped c ts cs /\
    st' = State (heap st) (trace st ++ domainEvents ts cs).
Proof.
  intros Hok. destruct (freshClient h opts) as [c|] eqn:Hf.
  - rewrite (newCFClient_fresh h ts cs opts st c Hf) in Hok.
    destruct (templateFailures c ts) eqn:Et; [|discriminate].
    destruct (constraintFailures (clientAfterTemplates c ts) cs) eqn:Ec;
      [|discriminate].
    injection Hok as <- <-. by exists c.
  - unfold freshClient in Hf. rewrite newCFClient_eq in Hok.
    destruct (localNew (driverArgs (bootOptions h opts))) as [d|e]; [|discriminate].
    by destruct (cfNewClient (clientArgs (bootOptions h opts) ++ [Driver d])).
Qed.

(** X2: when the driver or the client cannot be created, the bootstrap
    returns that error wrapped with the step that failed, and the state is
    untouched: no template and no constraint was handed to any client. *)
Theorem newCFClient_creation_failure h ts cs opts st :
  freshClient h opts = None ->
  exists msg e,
    newCFClient h ts cs opts st = (Err (ErrWrap msg (Some e)), st) /\
    (msg = "unable to create new driver: " /\
       localNew (driverArgs (bootOptions h opts)) = inr e
     \/ msg = "unable to set up Constraint Framework client: " /\
        exists d, localNew (driverArgs (bootOptions h opts)) = inl d /\
                  cfNewClient (clientArgs (bootOptions h opts) ++ [Driver d]) = inr e).
Proof.
  unfold freshClient. intros Hf. rewrite newCFClient_eq.
  destruct (localNew (driverArgs (bootOptions h opts))) as [d|e] eqn:Hd.
  - destruct (cfNewClient (clientArgs (bootOptions h opts) ++ [Driver d]))
      as [c|e] eqn:Hc; [discriminate|].
    exists "unable to set up Constraint Framework client: ", e.
    split; [done|]. right. split; [done|]. by exists d.
  - exists "unable to create new driver: ", e. split; [done|]. by left.
Qed.

(** X3: when every template loads and some constraint does not, every
    template and then every constraint has been tried, in order, and the
    bootstrap returns the aggregated error, which has an entry for that
    constraint; no handle is returned. *)
Theorem newCFClient_constraint_failure h ts cs opts st c k err :
  freshClient h opts = Some c ->
  templateFailures c ts = [] ->
  (k, Some err) ∈ constraintOutcomes (clientAfterTemplates c ts) cs ->
  newCFClient h ts cs opts st =
    (Err (ErrMulti (constraintFailures (clientAfterTemplates c ts) cs)),
     State (heap st) (trace st ++ domainEvents ts cs)) /\
  ErrWrapV "failed to add constraint " (fmtConstraint k) err
    ∈ constraintFailures (clientAfterTemplates c ts) cs.
Proof.
  intros Hf Ht Hin.
  assert (He : ErrWrapV "failed to add constraint " (fmtConstraint k) err
               ∈ constraintFailures (clientAfterTemplates c ts) cs)
    by (apply constraintFailures_elem; eauto).
  split; [|done]. rewrite (newCFClient_fresh h ts cs opts st c Hf), Ht.
  destruct (constraintFailures (clientAfterTemplates c ts) cs);
    [by apply not_elem_of_nil in He|done].
Qed.

(** ** The three domains *)

Lemma NewValidatorFromConfig_eq config opts st :
  NewValidatorFromConfig config opts st =
    match newCFClient GCPTarget (GCPTemplates config) (GCPConstraints config)
            opts st with
    | (Ok c1, st1) =>
        match newCFClient K8sValidationTarget (K8STemplates config)
                (K8SConstraints config) opts st1 with
        | (Ok c2, st2) =>
            match newCFClient TFTarget (TFTemplates config)
                    (TFConstraints config) opts st2 with
            | (Ok c3, st3) =>
                (Ok {| policyPaths := []; policyLibraryDir := EmptyString;
                       gcpCFClient := c1; k8sCFClient := c2; tfCFClient := c3 |},
                 st3)
            | (Err e, st3) =>
                (Err (ErrWrap "unable to set up TF Constraint Framework client: "
                        (Some e)), st3)
            | (Panic p, st3) => (Panic p, st3)
            end
        | (Err e, st2) =>
            (Err (ErrWrap "unable to set up K8S Constraint Framework client: "
                    (Some e)), st2)
        | (Panic p, st2) => (Panic p, st2)
        end
    | (Err e, st1) =>
        (Err (ErrWrap "unable to set up GCP Constraint Framework client: "
                (Some e)), st1)
    | (Panic p, st1) => (Panic p, st1)
    end.
Proof.
  unfold NewValidatorFromConfig, bind, wrapErr.
  destruct (newCFClient GCPTarget _ _ opts st) as [[c1|e|p] st1]; try done.
  destruct (newCFClient K8sValidationTarget _ _ opts st1) as [[c2|e|p] st2];
    try done.
  by destruct (newCFClient TFTarget _ _ opts st2) as [[c3|e|p] st3].
Qed.

(** X4: the domains are bootstrapped in the order GCP, Kubernetes,
    Terraform; the first one that fails ends the construction with its error
    wrapped under the name of that domain, in the state that domain left, so
    the later domains are never bootstrapped. *)
Theorem NewValidatorFromConfig_failing_domain config opts st e st' :
  (newCFClient GCPTarget (GCPTemplates config) (GCPConstraints config) opts st
     = (Err e, st') ->
   NewValidatorFromConfig config opts st =
     (Err (ErrWrap "unable to set up GCP Constraint Framework client: " (Some e)),
      st')) /\
  (forall c1 st1,
     newCFClient GCPTarget (GCPTemplates config) (GCPConstraints config) opts st
       = (Ok c1, st1) ->
     newCFClient K8sValidationTarget (K8STemplates config) (K8SConstraints config)
       opts st1 = (Err e, st') ->
     NewValidatorFromConfig config opts st =
       (Err (ErrWrap "unable to set up K8S Constraint Framework client: " (Some e)),
        st')) /\
  (forall c1 st1 c2 st2,
     newCFClient GCPTarget (GCPTemplates config) (GCPConstraints config) opts st
       = (Ok c1, st1) ->
     newCFClient K8sValidationTarget (K8STemplates config) (K8SConstraints config)
       opts st1 = (Ok c2, st2) ->
     newCFClient TFTarget (TFTemplates config) (TFConstraints config) opts st2
       = (Err e, st') ->
     NewValidatorFromConfig config opts st =
       (Err (ErrWrap "unable to set up TF Constraint Framework client: " (Some e)),
        st')).
Proof.
  rewrite NewValidatorFromConfig_eq. repeat split.
  - by intros ->.
  - by intros c1 st1 -> ->.
  - by intros c1 st1 c2 st2 -> -> ->.
Qed.

(** X5: a validator is returned only when every template and every
    constraint of all three domains loaded; its three clients are the fresh
    clients of the domains with everything added, its policy paths and
    library directory are left empty, and the calls made are the loads of
    GCP, then Kubernetes, then Terraform. *)
Theorem NewValidatorFromConfig_success config opts st v st' :
  NewValidatorFromConfig config opts st = (Ok v, st') ->
  exists c1 c2 c3,
    freshClient GCPTarget opts = Some c1 /\
    freshClient K8sValidationTarget opts = Some c2 /\
    freshClient TFTarget opts = Some c3 /\
    templateFailures c1 (GCPTemplates config) = [] /\
    constraintFailures (clientAfterTemplates c1 (GCPTemplates config))
      (GCPConstraints config) = [] /\
    templateFailures c2 (K8STemplates config) = [] /\
    constraintFailures (clientAfterTemplates c2 (K8STemplates config))
      (K8SConstraints config) = [] /\
    templateFailures c3 (TFTemplates config) = [] /\
    constraintFailures (clientAfterTemplates c3 (TFTemplates config))
      (TFConstraints config) = [] /\
    v = {| policyPaths := []; policyLibraryDir := EmptyString;
           gcpCFClient := bootstrapped c1 (GCPTemplates config) (GCPConstraints config);
           k8sCFClient := bootstrapped c2 (K8STemplates config) (K8SConstraints config);
           tfCFClient := bootstrapped c3 (TFTemplates config) (TFConstraints config) |} /\
    heap st' = heap st /\
    trace st' =
      trace st
        ++ domainEvents (GCPTemplates config) (GCPConstraints config)
        ++ domainEvents (K8STemplates config) (K8SConstraints config)
        ++ domainEvents (TFTemplates config) (TFConstraints config).
Proof.
  rewrite NewValidatorFromConfig_eq.
  destruct (newCFClient GCPTarget _ _ opts st) as [[c1'|e|p] st1] eqn:H1;
    try discriminate.
  destruct (newCFClient K8sValidationTarget _ _ opts st1) as [[c2'|e|p] st2] eqn:H2;
    try discriminate.
  destruct (newCFClient TFTarget _ _ opts st2) as [[c3'|e|p] st3] eqn:H3;
    try discriminate.
  intros [= <- <-].
  apply newCFClient_Ok_inv in H1 as (c1 & Hf1 & Ht1 & Hc1 & -> & ->).
  apply newCFClient_Ok_inv in H2 as (c2 & Hf2 & Ht2 & Hc2 & -> & ->).
  apply newCFClient_Ok_inv in H3 as (c3 & Hf3 & Ht3 & Hc3 & -> & ->).
  exists c1, c2, c3. simpl. repeat split; try done.
  by rewrite <- !app_assoc.
Qed.

End Bootstrapping.

Section Constructors.
Context {Eng : Engine} {Ldr : ConfigLoader}.

Lemma NewValidator_eq paths lib opts st :
  NewValidator paths lib opts st =
    match paths with
    | [] =>
        (Err (ErrMsg
           "No policy path set, provide an option to set the policy path gcv.PolicyPath"),
         st)
    | _ :: _ =>
        if String.eqb lib EmptyString
        then (Err (ErrMsg "No policy library set"), st)
        else match NewConfiguration paths lib with
             | inl config => NewValidatorFromConfig config opts st
             | inr e => (Err e, st)
             end
    end.
Proof.
  unfold NewValidator, NewValidatorConfig, bind, lift.
  destruct paths as [|p ps]; [done|]. simpl.
  destruct (String.eqb lib EmptyString); [done|].
  by destruct (NewConfiguration (p :: ps) lib).
Qed.

(** X6: [NewValidator] checks the policy paths first, then the policy
    library, then loads the configuration, and only then bootstraps the
    clients: each of the first three steps that fails returns its own error
    with the state untouched, and a validator is returned only when paths and
    library were given, the loader produced a configuration and the three
    domains of that configuration were bootstrapped. *)
Theorem NewValidator_outcomes paths lib opts st :
  (paths = [] ->
   NewValidator paths lib opts st =
     (Err (ErrMsg
        "No policy path set, provide an option to set the policy path gcv.PolicyPath"),
      st)) /\
  (paths <> [] -> lib = EmptyString ->
   NewValidator paths lib opts st = (Err (ErrMsg "No policy library set"), st)) /\
  (paths <> [] -> lib <> EmptyString ->
   forall e, NewConfiguration paths lib = inr e ->
     NewValidator paths lib opts st = (Err e, st)) /\
  (forall v st', NewValidator paths lib opts st = (Ok v, st') ->
     paths <> [] /\ lib <> EmptyString /\
     exists config,
       NewConfiguration paths lib = inl config /\
       NewValidatorFromConfig config opts st = (Ok v, st')).
Proof.
  rewrite NewValidator_eq. repeat split.
  - by intros ->.
  - intros Hp ->. by destruct paths.
  - intros Hp Hl e He. destruct paths as [|p ps]; [done|].
    destruct (String.eqb_spec lib EmptyString); [done|]. by rewrite He.
  - destruct paths as [|p ps]; [discriminate|done].
  - destruct paths as [|p ps]; [discriminate|].
    destruct (String.eqb_spec lib EmptyString); [discriminate|done].
  - destruct paths as [|p ps]; [discriminate|].
    destruct (String.eqb lib EmptyString); [discriminate|].
    destruct (NewConfiguration (p :: ps) lib) as [config|e] eqn:Hc; [|discriminate].
    by exists config.
Qed.

Lemma NewValidatorFromContents_eq files library opts st :
  NewValidatorFromContents files library opts st =
    match files, library with
    | [], _ => (Err (ErrMsg "No policy constraints provided"), st)
    | _ :: _, [] => (Err (ErrMsg "No policy library provided"), st)
    | _ :: _, _ :: _ =>
        match LoadUnstructuredFromContents files with
        | inr e => (Err e, st)
        | inl objects =>
            match NewConfigurationFromContents objects library with
            | inr e => (Err e, st)
            | inl config => NewValidatorFromConfig config opts st
            end
        end
    end.
Proof.
  unfold NewValidatorFromContents.
  destruct files as [|f fs]; [done|]. destruct library as [|b bs]; [done|].
  simpl. unfold bind at 1, lift at 1.
  destruct (LoadUnstructuredFromContents (f :: fs)) as [objects|e]; [|done].
  simpl. unfold bind at 1, lift at 1.
  by destruct (NewConfigurationFromContents objects (b :: bs)).
Qed.

(** X7: [NewValidatorFromContents] checks the policy files first, then the
    library contents, then parses the files and builds the configuration,
    and only then bootstraps the clients: each step that fails returns its
    own error with the state untouched, and a validator is returned only when
    files and library were given, both loading steps succeeded and the three
    domains of the resulting configuration were bootstrapped. *)
Theorem NewValidatorFromContents_outcomes files library opts st :
  (files = [] ->
   NewValidatorFromContents files library opts st =
     (Err (ErrMsg "No policy constraints provided"), st)) /\
  (files <> [] -> library = [] ->
   NewValidatorFromContents files library opts st =
     (Err (ErrMsg "No policy library provided"), st)) /\
  (files <> [] -> library <> [] ->
   forall e, LoadUnstructuredFromContents files = inr e ->
     NewValidatorFromContents files library opts st = (Err e, st)) /\
  (files <> [] -> library <> [] ->
   forall objects e,
     LoadUnstructuredFromContents files = inl objects ->
     NewConfigurationFromContents objects library = inr e ->
     NewValidatorFromContents files library opts st = (Err e, st)) /\
  (forall v st', NewValidatorFromContents files library opts st = (Ok v, st') ->
     files <> [] /\ library <> [] /\
     exists objects config,
       LoadUnstructuredFromContents files = inl objects /\
       NewConfigurationFromContents objects library = inl config /\
       NewValidatorFromConfig config opts st = (Ok v, st')).
Proof.
  rewrite NewValidatorFromContents_eq. repeat split.
  - by intros ->.
  - intros Hf ->. by destruct files.
  - intros Hf Hl e He. destruct files as [|f fs]; [done|].
    destruct library as [|b bs]; [done|]. by rewrite He.
  - intros Hf Hl objects e Ho He. destruct files as [|f fs]; [done|].
    destruct library as [|b bs]; [done|]. by rewrite Ho, He.
  - destruct files as [|f fs]; [discriminate|done].
  - destruct files as [|f fs]; [discriminate|].
    destruct library as [|b bs]; [discriminate|done].
  - destruct files as [|f fs]; [discriminate|].
    destruct library as [|b bs]; [discriminate|].
    destruct (LoadUnstructuredFromContents (f :: fs)) as [objects|e] eqn:Ho;
      [|discriminate].
    destruct (NewConfigurationFromContents objects (b :: bs))
      as [config|e] eqn:Hc; [|discriminate].
    by exists objects, config.
Qed.

End Constructors.

Section Reviewing.
Context {Eng : Engine} {Col : Collaborators}.

(** ** Ancestry resolution *)

(** X8: a successful resolution changes nothing but the [ancestry_path]
    entry of the map it was given: every other entry of that map (the name
    among them), every other map and the call trace are as before. *)
Theorem fixAncestry_changes_only_path l st st' :
  fixAncestry l st = (Ok tt, st') ->
  (forall k, k <> ancestryPathKey -> content st' l !! k = content st l !! k) /\
  nameOf (content st' l) = nameOf (content st l) /\
  (forall l', l' <> l -> heap st' !! l' = heap st !! l') /\
  trace st' = trace st.
Proof.
  intros H. apply fixAncestry_Ok_inv in H as (m & s & Hl & Hr & ->).
  rewrite content_updated. unfold content. rewrite Hl. simpl.
  repeat split.
  - intros k Hk. by rewrite lookup_insert_ne.
  - apply nameOf_insert_path.
  - intros l' Hl'. by rewrite lookup_insert_ne.
Qed.

(** X9: resolution never panics, not even on a nil map, and when it fails
    the error names the input, which has neither form well-typed, and the
    state is exactly as before. *)
Theorem fixAncestry_failure_leaves_state l st :
  (forall p, fst (fixAncestry l st) <> Panic p) /\
  (forall e st', fixAncestry l st = (Err e, st') ->
     st' = st /\
     e = ErrFmtV "asset missing ancestry information: " (VMap (content st l)) /\
     ancestorsOf (content st l) = None /\
     ancestryPathOf (content st l) = None).
Proof.
  rewrite fixAncestry_resolved. simpl. fold (content st l).
  unfold resolvedAncestry.
  destruct (ancestorsOf (content st l)); [split; [done|discriminate]|].
  destruct (ancestryPathOf (content st l)); [split; [done|discriminate]|].
  split; [done|]. by intros e st' [= <- <-].
Qed.

(** X10: with a well-typed ancestors sequence a second resolution succeeds
    like the first and leaves the state as the first one left it, whatever
    the encoder is. *)
Theorem fixAncestry_ancestors_idempotent l st m anc :
  heap st !! l = Some m ->
  ancestorsOf m = Some anc ->
  exists st1,
    fixAncestry l st = (Ok tt, st1) /\
    fixAncestry l st1 = (Ok tt, st1) /\
    ancestryPathOf (content st1 l) = Some (AncestryPath anc).
Proof.
  intros Hl Ha.
  set (m1 := <[ancestryPathKey := VStr (AncestryPath anc)]> m).
  assert (Ha1 : ancestorsOf m1 = Some anc).
  { unfold ancestorsOf, m1. by rewrite lookup_insert_ne. }
  exists (updated st l m1). split; [by apply fixAncestry_ancestors|]. split.
  - rewrite (fixAncestry_ancestors l (updated st l m1) m1 anc);
      [|by unfold updated; simpl; rewrite lookup_insert_eq|done].
    unfold updated, m1; simpl. by rewrite !insert_insert_eq.
  - rewrite content_updated. unfold ancestryPathOf, m1.
    by rewrite lookup_insert_eq.
Qed.

(** X11: an [ancestors] entry that is present but not a sequence of strings
    does not fail the resolution when the path string is well-typed: the
    accessor error is dropped and the normalised path string is stored. *)
Theorem fixAncestry_bad_ancestors_fall_back l st m v p :
  heap st !! l = Some m ->
  m !! ancestorSliceKey = Some v ->
  ancestorsOf m = None ->
  ancestryPathOf m = Some p ->
  (exists err, NestedStringSlice m [ancestorSliceKey] = ([], false, Some err)) /\
  fixAncestry l st =
    (Ok tt, updated st l (<[ancestryPathKey := VStr (NormalizeAncestry p)]> m)).
Proof.
  intros Hl Hv Ha Hp. split; [|by apply fixAncestry_path].
  unfold ancestorsOf in Ha. unfold NestedStringSlice.
  rewrite NestedFieldNoCopy_single, Hv in *.
  destruct v as [| | | |items|]; eauto.
  destruct (stringSlice_not_strings [ancestorSliceKey] items [] Ha) as [x ->].
  eauto.
Qed.

(** ** Dispatch *)

Lemma ReviewUnmarshalledJSON_unresolved v l st :
  resolvedAncestry (content st l) = None ->
  ReviewUnmarshalledJSON v l st =
    (Err (ErrFmtV "asset missing ancestry information: " (VMap (content st l))),
     st).
Proof.
  intros Hr. unfold ReviewUnmarshalledJSON, bind.
  rewrite fixAncestry_resolved. simpl. fold (content st l). by rewrite Hr.
Qed.

Lemma resolvedAncestry_empty : resolvedAncestry ∅ = None.
Proof. reflexivity. Qed.

(** The states a review can end in. *)
Lemma ReviewUnmarshalledJSON_final_state v l st :
  (resolvedAncestry (content st l) = None /\
   snd (ReviewUnmarshalledJSON v l st) = st) \/
  exists m s,
    heap st !! l = Some m /\
    resolvedAncestry m = Some s /\
    (IsK8S (<[ancestryPathKey := VStr s]> m) = false /\
     snd (ReviewUnmarshalledJSON v l st) =
       logged (updated st l (<[ancestryPathKey := VStr s]> m))
         (EvReview GCPTarget l (<[ancestryPathKey := VStr s]> m))
     \/ IsK8S (<[ancestryPathKey := VStr s]> m) = true /\
        (exists e, ConvertCAIToK8s (<[ancestryPathKey := VStr s]> m) = inr e) /\
        snd (ReviewUnmarshalledJSON v l st) =
          updated st l (<[ancestryPathKey := VStr s]> m)
     \/ IsK8S (<[ancestryPathKey := VStr s]> m) = true /\
        exists object k,
          ConvertCAIToK8s (<[ancestryPathKey := VStr s]> m) = inl object /\
          k <> l /\ heap st !! k = None /\
          snd (ReviewUnmarshalledJSON v l st) =
            logged (updated (updated st l (<[ancestryPathKey := VStr s]> m)) k object)
              (EvReview K8sValidationTarget k object)).
Proof.
  destruct (resolvedAncestry (content st l)) as [s|] eqn:Hr; cycle 1.
  { left. split; [done|]. by rewrite ReviewUnmarshalledJSON_unresolved. }
  right. unfold content in Hr.
  destruct (heap st !! l) as [m|] eqn:Hl; simpl in Hr; [|discriminate].
  exists m, s. split; [done|]. split; [done|].
  rewrite (ReviewUnmarshalledJSON_resolved v l st m s Hl Hr). simpl.
  set (m' := <[ancestryPathKey := VStr s]> m).
  destruct (IsK8S m') eqn:Hk.
  - right. rewrite reviewK8SResource_eq
      by (unfold updated; simpl; rewrite lookup_insert_eq; eauto).
    simpl. rewrite content_updated.
    destruct (ConvertCAIToK8s m') as [object|e] eqn:Hc.
    + right. split; [done|]. simpl.
      set (k := fresh (dom (<[l:=m']> (heap st)))).
      assert (Hfresh : k ∉ dom (<[l:=m']> (heap st))) by apply is_fresh.
      rewrite dom_insert_L in Hfresh.
      exists object, k. repeat split; try done.
      * intros ->. set_solver.
      * apply not_elem_of_dom. set_solver.
    + left. split; [done|]. split; [by exists e|done].
  - left. split; [done|]. rewrite reviewGCPResource_eq. simpl.
    by rewrite content_updated.
Qed.


(** A review leaves every other map that existed before the call as it was. *)
Lemma ReviewUnmarshalledJSON_frame v l st l' :
  l' <> l ->
  is_Some (heap st !! l') ->
  heap (snd (ReviewUnmarshalledJSON v l st)) !! l' = heap st !! l'.
Proof.
  intros Hl' [x Hx].
  destruct (ReviewUnmarshalledJSON_final_state v l st)
    as [[_ ->] | (m & s & _ & _ & Hcase)]; [done|].
  destruct Hcase as [[_ ->] | [(_ & _ & ->) | (_ & object & k & _ & Hk & Hfree & ->)]];
    simpl.
  - by rewrite lookup_insert_ne.
  - by rewrite lookup_insert_ne.
  - rewrite lookup_insert_ne by congruence. by rewrite lookup_insert_ne.
Qed.

(** X13: whatever the outcome of the review (a Result, an error of the
    conversion, of the client or of the Result, or a panic), once the
    ancestry has been resolved the caller's map holds the resolved
    [ancestry_path]; every other map that existed before the call is
    untouched. *)
Theorem ReviewUnmarshalledJSON_store v l st m s :
  heap st !! l = Some m ->
  resolvedAncestry m = Some s ->
  content (snd (ReviewUnmarshalledJSON v l st)) l = <[ancestryPathKey := VStr s]> m /\
  (forall l', l' <> l -> is_Some (heap st !! l') ->
     heap (snd (ReviewUnmarshalledJSON v l st)) !! l' = heap st !! l').
Proof.
  intros Hl Hr. split; [|intros l'; apply ReviewUnmarshalledJSON_frame].
  destruct (ReviewUnmarshalledJSON_final_state v l st)
    as [[Hnone _] | (m0 & s0 & Hl0 & Hr0 & Hcase)].
  { unfold content in Hnone. rewrite Hl in Hnone. simpl in Hnone. congruence. }
  assert (m0 = m) as -> by congruence. assert (s0 = s) as -> by congruence.
  destruct Hcase as [[_ ->] | [(_ & _ & ->) | (_ & object & k & _ & Hk & Hfree & ->)]].
  - by rewrite content_logged, content_updated.
  - by rewrite content_updated.
  - by rewrite content_logged, content_updated_ne, content_updated.
Qed.

(** X14: an error of the client that was asked to review is returned
    wrapped under the name of its domain. *)
Theorem ReviewUnmarshalledJSON_client_failure v l st m s e :
  heap st !! l = Some m ->
  resolvedAncestry m = Some s ->
  (IsK8S (<[ancestryPathKey := VStr s]> m) = false ->
   cfReview (gcpCFClient v) (<[ancestryPathKey := VStr s]> m) = inr e ->
   fst (ReviewUnmarshalledJSON v l st) =
     Err (ErrWrap "GCP target Constraint Framework review call failed: " (Some e))) /\
  (IsK8S (<[ancestryPathKey := VStr s]> m) = true ->
   forall object,
     ConvertCAIToK8s (<[ancestryPathKey := VStr s]> m) = inl object ->
     cfReview (k8sCFClient v) object = inr e ->
     fst (ReviewUnmarshalledJSON v l st) =
       Err (ErrWrap "K8S target Constraint Framework review call failed: " (Some e))).
Proof.
  intros Hl Hr. rewrite (ReviewUnmarshalledJSON_resolved v l st m s Hl Hr).
  simpl. split.
  - intros -> Hrv. rewrite reviewGCPResource_eq. simpl.
    by rewrite content_updated, Hrv.
  - intros -> object Hc Hrv.
    rewrite reviewK8SResource_eq
      by (unfold updated; simpl; rewrite lookup_insert_eq; eauto).
    simpl. by rewrite content_updated, Hc, Hrv.
Qed.

(** X15: when the conversion of a Kubernetes-shaped asset fails, the error
    is returned wrapped as a conversion failure and no client is asked to
    review; only the ancestry path has been rewritten. *)
Theorem ReviewUnmarshalledJSON_conversion_failure v l st m s e :
  heap st !! l = Some m ->
  resolvedAncestry m = Some s ->
  IsK8S (<[ancestryPathKey := VStr s]> m) = true ->
  ConvertCAIToK8s (<[ancestryPathKey := VStr s]> m) = inr e ->
  ReviewUnmarshalledJSON v l st =
    (Err (ErrWrap "failed to convert asset to admission request: " (Some e)),
     updated st l (<[ancestryPathKey := VStr s]> m)).
Proof.
  intros Hl Hr Hk Hc. rewrite (ReviewUnmarshalledJSON_resolved v l st m s Hl Hr).
  simpl. rewrite Hk.
  rewrite reviewK8SResource_eq
    by (unfold updated; simpl; rewrite lookup_insert_eq; eauto).
  simpl. by rewrite content_updated, Hc.
Qed.

(** ** The Terraform entry point *)


(** X17: an error of the Terraform client's Review is returned wrapped
    under the name of the Terraform target. *)
Theorem ReviewTFResourceChange_client_failure v l st e :
  tfHandled (content st l) = true ->
  cfReview (tfCFClient v) (content st l) = inr e ->
  ReviewTFResourceChange v l st =
    (Err (ErrWrap "TF target Constraint Framework review call failed: " (Some e)),
     logged st (EvReview TFTarget l (content st l))).
Proof.
  intros Hh Hrv. rewrite ReviewTFResourceChange_eq. simpl. by rewrite Hh, Hrv.
Qed.

(** ** The entry points that build the map themselves *)

Lemma ToViolations_state r st : snd (ToViolations r st) = st.
Proof.
  unfold ToViolations, bind, load, lift. simpl.
  by destruct (toViolations _ _ _ _ _).
Qed.

Lemma fresh_not_allocated (st : state) l' :
  is_Some (heap st !! l') -> l' <> fresh (dom (heap st)).
Proof.
  intros Hs ->. apply (is_fresh (dom (heap st))). by apply elem_of_dom.
Qed.

(** X18: text that does not decode is refused with the decoder's error
    wrapped as an unmarshalling failure; no client is called and no map that
    existed before is touched. *)
Theorem ReviewJSON_invalid v data st e :
  jsonUnmarshal data = inr e ->
  fst (ReviewJSON v data st) = Err (ErrWrap "failed to unmarshal json: " (Some e)) /\
  trace (snd (ReviewJSON v data st)) = trace st /\
  (forall l', is_Some (heap st !! l') ->
     heap (snd (ReviewJSON v data st)) !! l' = heap st !! l').
Proof.
  intros Hj. rewrite ReviewJSON_eq, Hj. simpl. repeat split.
  intros l' Hl'. rewrite lookup_insert_ne; [done|].
  intros Heq. by apply (fresh_not_allocated st l').
Qed.

(** The map under review holds the resolved ancestry path in the end. *)
Lemma ReviewUnmarshalledJSON_content v l st m s :
  heap st !! l = Some m ->
  resolvedAncestry m = Some s ->
  content (snd (ReviewUnmarshalledJSON v l st)) l = <[ancestryPathKey := VStr s]> m.
Proof.
  intros Hl Hr.
  destruct (ReviewUnmarshalledJSON_final_state v l st)
    as [[Hnone _] | (m0 & s0 & Hl0 & Hr0 & Hcase)].
  { unfold content in Hnone. rewrite Hl in Hnone. simpl in Hnone. congruence. }
  assert (m0 = m) as -> by congruence. assert (s0 = s) as -> by congruence.
  destruct Hcase as [[_ ->] | [(_ & _ & ->) | (_ & object & k & _ & Hk & Hfree & ->)]].
  - by rewrite content_logged, content_updated.
  - by rewrite content_updated.
  - by rewrite content_logged, content_updated_ne, content_updated.
Qed.

(** X19: on text that decodes, [ReviewJSON] is [ReviewUnmarshalledJSON] on a
    new map holding the decoded object; when the ancestry of the decoded
    object resolves, that new map ends up holding the object with the
    resolved [ancestry_path], whatever the outcome; and no map that existed
    before is touched. *)
Theorem ReviewJSON_decoded v data st m :
  jsonUnmarshal data = inl m ->
  ReviewJSON v data st =
    ReviewUnmarshalledJSON v (fresh (dom (heap st)))
      (updated st (fresh (dom (heap st))) m) /\
  heap st !! fresh (dom (heap st)) = None /\
  (forall s, resolvedAncestry m = Some s ->
     content (snd (ReviewJSON v data st)) (fresh (dom (heap st)))
       = <[ancestryPathKey := VStr s]> m) /\
  (forall l', is_Some (heap st !! l') ->
     heap (snd (ReviewJSON v data st)) !! l' = heap st !! l').
Proof.
  intros Hj. rewrite ReviewJSON_eq, Hj. simpl. repeat split.
  - apply not_elem_of_dom, is_fresh.
  - intros s Hr. apply ReviewUnmarshalledJSON_content; [|done].
    simpl. by rewrite lookup_insert_eq.
  - intros l' Hl'. pose proof (fresh_not_allocated st l' Hl') as Hne.
    rewrite ReviewUnmarshalledJSON_frame; simpl.
    + by rewrite lookup_insert_ne.
    + done.
    + by rewrite lookup_insert_ne.
Qed.

(** X20: an error of the sanitizer, of the validation or of the conversion
    to a generic value ends [ReviewAsset] with that very error, unwrapped,
    in an untouched state: no client is called. *)
Theorem ReviewAsset_rejects v asset st e :
  (SanitizeAncestryPath asset = inr e -> ReviewAsset v asset st = (Err e, st)) /\
  (forall asset',
     SanitizeAncestryPath asset = inl asset' ->
     ValidateAsset asset' = Some e ->
     ReviewAsset v asset st = (Err e, st)) /\
  (forall asset',
     SanitizeAncestryPath asset = inl asset' ->
     ValidateAsset asset' = None ->
     ConvertResourceViaJSONToInterface asset' = inr e ->
     ReviewAsset v asset st = (Err e, st)).
Proof.
  rewrite ReviewAsset_eq. repeat split.
  - by intros ->.
  - by intros asset' -> ->.
  - by intros asset' -> -> ->.
Qed.

(** X21: an asset that passes sanitizing and validation is reviewed as a new
    map holding its generic form: the violations are those of the Result of
    [ReviewUnmarshalledJSON] on that map, its errors are returned unwrapped,
    and no map that existed before is touched. *)
Theorem ReviewAsset_reviews_copy v asset asset' st m :
  SanitizeAncestryPath asset = inl asset' ->
  ValidateAsset asset' = None ->
  ConvertResourceViaJSONToInterface asset' = inl (VMap m) ->
  ReviewAsset v asset st =
    bind (ReviewUnmarshalledJSON v (fresh (dom (heap st)))) ToViolations
      (updated st (fresh (dom (heap st))) m) /\
  (forall e st',
     ReviewUnmarshalledJSON v (fresh (dom (heap st)))
       (updated st (fresh (dom (heap st))) m) = (Err e, st') ->
     ReviewAsset v asset st = (Err e, st')) /\
  (forall l', is_Some (heap st !! l') ->
     heap (snd (ReviewAsset v asset st)) !! l' = heap st !! l').
Proof.
  intros Hs Hv Hc. rewrite ReviewAsset_eq, Hs, Hv, Hc. simpl.
  split; [done|]. split.
  - intros e st' Hrun. unfold bind. by rewrite Hrun.
  - intros l' Hl'. pose proof (fresh_not_allocated st l' Hl') as Hne.
    set (k := fresh (dom (heap st))) in *.
    assert (Hf : heap (snd (ReviewUnmarshalledJSON v k (updated st k m))) !! l'
                 = heap st !! l').
    { rewrite ReviewUnmarshalledJSON_frame; simpl;
        [by rewrite lookup_insert_ne | done | by rewrite lookup_insert_ne]. }
    unfold bind.
    destruct (ReviewUnmarshalledJSON v k (updated st k m)) as [[r|e|p] st1];
      simpl in *; try done.
    by rewrite ToViolations_state.
Qed.

End Reviewing.

(** * The orchestrator on the reference collaborators *)

Import Sample.

(** Resolution of an asset that carries both forms: the sequence wins and
    the stale path string is overwritten. *)
Lemma fixAncestry_sequence_precedence_witness :
  exists st',
    fixAncestry 1%positive (store assetWithBoth) = (Ok tt, st') /\
    ancestryPathOf (content st' 1%positive) = Some "org/1/folder/2".
Proof.
  destruct (fixAncestry_sequence_precedence 1%positive (store assetWithBoth)
              assetWithBoth ["org/1"; "folder/2"])
    as (st' & Hrun & _ & Hpath & _); [reflexivity | reflexivity |].
  exists st'. split; [exact Hrun | exact Hpath].
Defined.

(** A successful resolution on a path-only asset leaves the normalised path
    in the map. *)
Lemma fixAncestry_success_carries_path_witness :
  exists m s,
    heap (store assetPathOnly) !! 1%positive = Some m /\
    resolvedAncestry m = Some s /\
    ancestryPathOf
      (content (snd (fixAncestry 1%positive (store assetPathOnly))) 1%positive)
    = Some s.
Proof.
  destruct (fixAncestry_success_carries_path 1%positive (store assetPathOnly)
              (snd (fixAncestry 1%positive (store assetPathOnly))))
    as (m & s & Hl & Hr & _ & Hp); [vm_compute; reflexivity |].
  exists m, s. repeat split; assumption.
Defined.

(** C5 fails on the asset [{"name": "a", "ancestry_path": EmptyString}]:
    the path string is well-typed, the normaliser returns it unchanged, and
    resolution succeeds with an empty [ancestry_path] in the map. *)
Lemma fixAncestry_empty_path_counterexample :
  fst (fixAncestry 1%positive (store assetEmptyPath)) = Ok tt /\
  ancestryPathOf
    (content (snd (fixAncestry 1%positive (store assetEmptyPath))) 1%positive)
  = Some EmptyString.
Proof. split; vm_compute; reflexivity. Qed.

(** An asset with no ancestry information at all is rejected before any
    client is called. *)
Lemma ReviewUnmarshalledJSON_missing_ancestry_witness :
  ReviewUnmarshalledJSON validator 1%positive (store assetNoAncestry) =
    (Err (ErrFmtV "asset missing ancestry information: " (VMap assetNoAncestry)),
     store assetNoAncestry).
Proof.
  exact (ReviewUnmarshalledJSON_missing_ancestry validator 1%positive
           (store assetNoAncestry) assetNoAncestry eq_refl eq_refl eq_refl).
Defined.

(** Two resolutions of a path-only asset: the second one changes nothing. *)
Lemma fixAncestry_idempotent_on_path_witness :
  exists st1,
    fixAncestry 1%positive (store assetPathOnly) = (Ok tt, st1) /\
    fixAncestry 1%positive st1 = (Ok tt, st1) /\
    ancestryPathOf (content st1 1%positive) = Some "organizations/1/folders/2".
Proof.
  destruct (fixAncestry_idempotent_on_path 1%positive (store assetPathOnly)
              assetPathOnly "organization/1/folder/2")
    as (st1 & Hfirst & Hsecond & Hpath);
    [reflexivity | reflexivity | reflexivity | vm_compute; reflexivity |].
  exists st1. split; [exact Hfirst|]. split; [exact Hsecond | exact Hpath].
Defined.

(** C1 fails on the pod of a GKE cluster [SampleConfig.gkePodAsset], whose
    name has the form of a Kubernetes asset name and whose resource carries a
    version and the object: the review goes down the Kubernetes path, the
    converted object is the pod, whose display name is [nginx], and the
    Result is named after the asset. *)
Lemma ReviewUnmarshalledJSON_k8s_identifier_counterexample :
  exists r st',
    ReviewUnmarshalledJSON validator 1%positive (store SampleConfig.gkePodAsset)
      = (Ok r, st') /\
    IsK8S (content st' 1%positive) = true /\
    Target r = K8sValidationTarget /\
    trace st' = [EvReview K8sValidationTarget (ReviewResource r)
                   SampleConfig.gkePodObject] /\
    content st' (ReviewResource r) = SampleConfig.gkePodObject /\
    GetName (content st' (ReviewResource r)) = "nginx" /\
    Name r = SampleConfig.gkePodName /\
    nameOf SampleConfig.gkePodAsset = Some (Name r) /\
    Name r <> GetName (content st' (ReviewResource r)).
Proof.
  eexists _, _. split; [vm_compute; reflexivity|].
  repeat split; try (vm_compute; reflexivity). vm_compute. discriminate.
Qed.

(** The amended C1 on the same pod. *)
Lemma ReviewUnmarshalledJSON_k8s_identifier_witness :
  let res := ReviewUnmarshalledJSON validator 1%positive
               (store SampleConfig.gkePodAsset) in
  exists r,
    fst res = Ok r /\
    Name r = SampleConfig.gkePodName /\
    nameOf (content (snd res) 1%positive) = Some (Name r) /\
    ReviewResource r <> 1%positive /\
    heap (snd res) !! ReviewResource r = Some SampleConfig.gkePodObject.
Proof.
  set (r := {| Target := K8sValidationTarget;
               Name := SampleConfig.gkePodName;
               InputResource := 1%positive; ReviewResource := 2%positive;
               Responses := (@nil string : @responses engine) |} : Result).
  destruct (ReviewUnmarshalledJSON_k8s_identifier validator 1%positive
              (store SampleConfig.gkePodAsset) r
              (snd (ReviewUnmarshalledJSON validator 1%positive
                      (store SampleConfig.gkePodAsset))))
    as (Hn & _ & _ & Hne & object & _ & Hobj);
    [vm_compute; reflexivity | vm_compute; reflexivity |].
  exists r. split; [vm_compute; reflexivity|]. split; [reflexivity|].
  split; [exact Hn|]. split; [exact Hne|]. vm_compute. reflexivity.
Defined.

(** A bucket asset goes down the GCP path: one map, recorded twice. *)
Lemma ReviewUnmarshalledJSON_gcp_same_map_witness :
  let res := ReviewUnmarshalledJSON validator 1%positive (store bucketAsset) in
  exists r,
    fst res = Ok r /\
    InputResource r = ReviewResource r /\
    InputResource r = 1%positive.
Proof.
  set (r := {| Target := GCPTarget;
               Name := "//storage.googleapis.com/my-bucket";
               InputResource := 1%positive; ReviewResource := 1%positive;
               Responses := (@nil string : @responses engine) |} : Result).
  destruct (ReviewUnmarshalledJSON_gcp_same_map validator 1%positive
              (store bucketAsset) r
              (snd (ReviewUnmarshalledJSON validator 1%positive (store bucketAsset))))
    as (Heq & Hl & _);
    [vm_compute; reflexivity | vm_compute; reflexivity |].
  exists r. split; [vm_compute; reflexivity|]. split; [exact Heq | exact Hl].
Defined.

(** C2: on an asset without a [name] field, GCP-shaped or Kubernetes-shaped,
    [ReviewUnmarshalledJSON] does not return an error: the client is asked to
    review, and the assertion on [asset["name"]] then panics. *)
Theorem ReviewUnmarshalledJSON_missing_name_panics :
  ReviewUnmarshalledJSON validator 1%positive (store bucketAssetNoName) =
    (Panic (PanicTypeAssertion VNil "string"),
     logged (updated (store bucketAssetNoName) 1%positive
               (<[ancestryPathKey := VStr "organizations/1/projects/2"]>
                  bucketAssetNoName))
       (EvReview GCPTarget 1%positive
          (<[ancestryPathKey := VStr "organizations/1/projects/2"]>
             bucketAssetNoName))) /\
  fst (ReviewUnmarshalledJSON validator 1%positive (store podAssetNoName)) =
    Panic (PanicTypeAssertion VNil "string") /\
  trace (snd (ReviewUnmarshalledJSON validator 1%positive (store podAssetNoName))) =
    [EvReview K8sValidationTarget 2%positive podObject].
Proof. repeat split; vm_compute; reflexivity. Qed.

(** The reference adapter recognises only inputs with a string address. *)
Lemma sample_tfRecognisedHasAddress : tfRecognisedHasAddress.
Proof.
  intros m. unfold tfHandled. simpl. rewrite NestedString_single.
  destruct (m !! "address") as [[]|]; simpl; try discriminate; eauto.
Qed.

(** A planned change without an address is refused before any review. *)
Lemma ReviewTFResourceChange_without_address_witness :
  ReviewTFResourceChange validator 1%positive (store plannedChangeNoAddress) =
    (Err (ErrWrap "Unhandled resource: " None), store plannedChangeNoAddress).
Proof.
  exact (ReviewTFResourceChange_without_address validator 1%positive
           (store plannedChangeNoAddress) sample_tfRecognisedHasAddress eq_refl).
Defined.


(** A bootstrap with one template that cannot be loaded among three, and
    one constraint that is never tried. *)
Lemma newCFClient_all_or_nothing_witness :
  newCFClient (Eng := engine) GCPTarget ["A"; EmptyString; "B"] [constraintA]
      [DisableBuiltins ["http.send"]] (State ∅ []) =
    (Err (ErrMulti [ErrWrapV "failed to add template " EmptyString
                      (ErrMsg "template has no kind")]),
     State ∅ [EvAddTemplate "A"; EvAddTemplate EmptyString; EvAddTemplate "B"]).
Proof.
  destruct (newCFClient_all_or_nothing (Eng := engine) GCPTarget
              ["A"; EmptyString; "B"]
              [constraintA] [DisableBuiltins ["http.send"]] (State ∅ [])
              [Tracing false; DisableBuiltinsArg ["http.send"]]
              {| kinds := []; loaded := [] |})
    as [Hfail _]; [reflexivity | reflexivity |].
  destruct Hfail as [Hrun _].
  - exists EmptyString, (ErrMsg "template has no kind"). simpl.
    apply list_elem_of_further, list_elem_of_here.
  - exact Hrun.
Defined.

(** * The further properties on the reference collaborators *)

(** The stricter driver refuses to disable an empty list of builtins: the
    bootstrap fails before any template is tried. *)
Lemma newCFClient_creation_failure_witness :
  exists msg e,
    newCFClient (Eng := SampleConfig.strictEngine) GCPTarget ["A"] [constraintA]
      [DisableBuiltins []] (State ∅ []) = (Err (ErrWrap msg (Some e)), State ∅ []).
Proof.
  destruct (newCFClient_creation_failure (Eng := SampleConfig.strictEngine)
              GCPTarget ["A"] [constraintA] [DisableBuiltins []] (State ∅ []))
    as (msg & e & Hrun & _); [reflexivity|].
  by exists msg, e.
Defined.

(** A constraint of a kind that has no template fails after every template
    and every constraint has been tried. *)
Lemma newCFClient_constraint_failure_witness :
  newCFClient (Eng := engine) GCPTarget ["A"]
      [constraintA; {[ "kind" := VStr "B" ]}] [] (State ∅ []) =
    (Err (ErrMulti [ErrWrapV "failed to add constraint " "B"
                      (ErrMsg "no template for the kind of the constraint")]),
     State ∅ [EvAddTemplate "A"; EvAddConstraint constraintA;
              EvAddConstraint {[ "kind" := VStr "B" ]}]).
Proof.
  destruct (newCFClient_constraint_failure (Eng := engine) GCPTarget ["A"]
              [constraintA; {[ "kind" := VStr "B" ]}] [] (State ∅ [])
              {| kinds := []; loaded := [] |} {[ "kind" := VStr "B" ]}
              (ErrMsg "no template for the kind of the constraint"))
    as [Hrun _]; [reflexivity | reflexivity | |exact Hrun].
  vm_compute. apply list_elem_of_further, list_elem_of_here.
Defined.

(** A Kubernetes template that cannot be loaded: the error names that
    domain and the Terraform template is never tried. *)
Lemma NewValidatorFromConfig_failing_domain_witness :
  NewValidatorFromConfig (SampleConfig.threeDomains "A" EmptyString "C") []
      (State ∅ []) =
    (Err (ErrWrap "unable to set up K8S Constraint Framework client: "
            (Some (ErrMulti [ErrWrapV "failed to add template " EmptyString
                               (ErrMsg "template has no kind")]))),
     State ∅ [EvAddTemplate "A"; EvAddTemplate EmptyString]).
Proof.
  destruct (NewValidatorFromConfig_failing_domain (Eng := engine)
              (SampleConfig.threeDomains "A" EmptyString "C") [] (State ∅ [])
              (ErrMulti [ErrWrapV "failed to add template " EmptyString
                           (ErrMsg "template has no kind")])
              (State (Eng := engine) ∅
                 [EvAddTemplate (Eng := engine) "A";
                  EvAddTemplate (Eng := engine) EmptyString]))
    as (_ & Hk8s & _).
  exact (Hk8s {| kinds := ["A"]; loaded := [] |}
           (State (Eng := engine) ∅ [EvAddTemplate (Eng := engine) "A"])
           eq_refl eq_refl).
Defined.

(** Three loadable templates: the validator holds one bootstrapped client
    per domain. *)
Lemma NewValidatorFromConfig_success_witness :
  exists v st',
    NewValidatorFromConfig (SampleConfig.threeDomains "A" "B" "C") []
      (State ∅ []) = (Ok v, st') /\
    kinds (k8sCFClient v) = ["B"] /\
    trace st' = [EvAddTemplate "A"; EvAddTemplate "B"; EvAddTemplate "C"].
Proof.
  set (v := @Build_Validator engine [] EmptyString
               {| kinds := ["A"]; loaded := [] |}
               {| kinds := ["B"]; loaded := [] |}
               {| kinds := ["C"]; loaded := [] |}).
  set (st' := State (Eng := engine) ∅
                [EvAddTemplate (Eng := engine) "A";
                 EvAddTemplate (Eng := engine) "B";
                 EvAddTemplate (Eng := engine) "C"]).
  destruct (NewValidatorFromConfig_success (Eng := engine)
              (SampleConfig.threeDomains "A" "B" "C") [] (State ∅ []) v st')
    as (c1 & c2 & c3 & _ & _ & _ & _ & _ & _ & _ & _ & _ & _ & _ & Htrace);
    [reflexivity|].
  exists v, st'. split; [reflexivity|]. split; [reflexivity | exact Htrace].
Defined.

(** A validator built from one policy path. *)
Lemma NewValidator_outcomes_witness :
  exists config,
    NewConfiguration (ConfigLoader := SampleConfig.loader) ["A"] "lib"
      = inl config /\
    fst (NewValidatorFromConfig config [] (State ∅ [])) =
      fst (NewValidator (Ldr := SampleConfig.loader) ["A"] "lib" [] (State ∅ [])).
Proof.
  set (res := NewValidator (Ldr := SampleConfig.loader) ["A"] "lib" []
                (State ∅ [])).
  set (v := @Build_Validator engine [] EmptyString
               {| kinds := ["A"]; loaded := [] |}
               {| kinds := []; loaded := [] |}
               {| kinds := []; loaded := [] |}).
  destruct (NewValidator_outcomes (Ldr := SampleConfig.loader) ["A"] "lib" []
              (State ∅ [])) as (_ & _ & _ & Hok).
  destruct (Hok v (snd res)) as (_ & _ & config & Hc & Hrun); [reflexivity|].
  exists config. split; [exact Hc|]. by rewrite Hrun.
Defined.

(** A validator built from the contents of one policy file. *)
Lemma NewValidatorFromContents_outcomes_witness :
  exists objects config,
    LoadUnstructuredFromContents (ConfigLoader := SampleConfig.loader) ["A"]
      = inl objects /\
    NewConfigurationFromContents (ConfigLoader := SampleConfig.loader) objects
      ["package lib"] = inl config /\
    fst (NewValidatorFromConfig config [] (State ∅ [])) =
      fst (NewValidatorFromContents (Ldr := SampleConfig.loader) ["A"]
             ["package lib"] [] (State ∅ [])).
Proof.
  set (res := NewValidatorFromContents (Ldr := SampleConfig.loader) ["A"]
                ["package lib"] [] (State ∅ [])).
  set (v := @Build_Validator engine [] EmptyString
               {| kinds := ["A"]; loaded := [] |}
               {| kinds := []; loaded := [] |}
               {| kinds := []; loaded := [] |}).
  destruct (NewValidatorFromContents_outcomes (Ldr := SampleConfig.loader) ["A"]
              ["package lib"] [] (State ∅ [])) as (_ & _ & _ & _ & Hok).
  destruct (Hok v (snd res)) as (_ & _ & objects & config & Ho & Hc & Hrun);
    [vm_compute; reflexivity|].
  exists objects, config. split; [exact Ho|]. split; [exact Hc|]. by rewrite Hrun.
Defined.

(** Resolution of a path-only asset keeps its name. *)
Lemma fixAncestry_changes_only_path_witness :
  nameOf (content (snd (fixAncestry 1%positive (store assetPathOnly))) 1%positive)
  = Some "a".
Proof.
  destruct (fixAncestry_changes_only_path 1%positive (store assetPathOnly)
              (snd (fixAncestry 1%positive (store assetPathOnly))))
    as (_ & Hname & _); [vm_compute; reflexivity|].
  rewrite Hname. reflexivity.
Defined.

(** An asset with no ancestry information: the resolution fails and the store
    is as before. *)
Lemma fixAncestry_failure_leaves_state_witness :
  snd (fixAncestry 1%positive (store assetNoAncestry)) = store assetNoAncestry.
Proof.
  destruct (fixAncestry_failure_leaves_state 1%positive (store assetNoAncestry))
    as [_ Herr].
  destruct (Herr (ErrFmtV "asset missing ancestry information: "
                    (VMap assetNoAncestry))
              (snd (fixAncestry 1%positive (store assetNoAncestry))))
    as [Hst _]; [vm_compute; reflexivity | exact Hst].
Defined.

(** Two resolutions of an asset with ancestors. *)
Lemma fixAncestry_ancestors_idempotent_witness :
  exists st1,
    fixAncestry 1%positive (store assetWithBoth) = (Ok tt, st1) /\
    fixAncestry 1%positive st1 = (Ok tt, st1).
Proof.
  destruct (fixAncestry_ancestors_idempotent 1%positive (store assetWithBoth)
              assetWithBoth ["org/1"; "folder/2"])
    as (st1 & Hfirst & Hsecond & _); [reflexivity | reflexivity |].
  exists st1. split; [exact Hfirst | exact Hsecond].
Defined.

(** Ancestors holding a number: the path string is used. *)
Lemma fixAncestry_bad_ancestors_fall_back_witness :
  ancestryPathOf
    (content (snd (fixAncestry 1%positive (store SampleConfig.assetBadAncestors)))
       1%positive)
  = Some "organizations/1".
Proof.
  destruct (fixAncestry_bad_ancestors_fall_back 1%positive
              (store SampleConfig.assetBadAncestors)
              SampleConfig.assetBadAncestors
              (VSlice [VStr "org/1"; VNum 2]) "organization/1")
    as [_ Hrun]; [reflexivity | reflexivity | reflexivity | reflexivity |].
  rewrite Hrun. vm_compute. reflexivity.
Defined.


(** A bucket without a name: the review panics, and the caller's map has the
    normalised ancestry path all the same. *)
Lemma ReviewUnmarshalledJSON_store_witness :
  content
    (snd (ReviewUnmarshalledJSON validator 1%positive (store bucketAssetNoName)))
    1%positive
  = <[ancestryPathKey := VStr "organizations/1/projects/2"]> bucketAssetNoName.
Proof.
  destruct (ReviewUnmarshalledJSON_store validator 1%positive
              (store bucketAssetNoName) bucketAssetNoName
              "organizations/1/projects/2")
    as [Hmap _]; [reflexivity | vm_compute; reflexivity | exact Hmap].
Defined.

(** The stricter GCP client refuses an asset without an asset type. *)
Lemma ReviewUnmarshalledJSON_client_failure_witness :
  fst (ReviewUnmarshalledJSON (Col := SampleConfig.strictCollaborators)
         SampleConfig.strictValidator 1%positive
         (SampleConfig.strictStore assetPathOnly)) =
    Err (ErrWrap "GCP target Constraint Framework review call failed: "
           (Some (ErrMsg "object has neither kind nor asset type"))).
Proof.
  destruct (ReviewUnmarshalledJSON_client_failure
              (Col := SampleConfig.strictCollaborators)
              SampleConfig.strictValidator 1%positive
              (SampleConfig.strictStore assetPathOnly) assetPathOnly
              "organizations/1/folders/2"
              (ErrMsg "object has neither kind nor asset type"))
    as [Hgcp _]; [reflexivity | vm_compute; reflexivity |].
  apply Hgcp; vm_compute; reflexivity.
Defined.

(** A pod asset without resource data cannot be converted. *)
Lemma ReviewUnmarshalledJSON_conversion_failure_witness :
  ReviewUnmarshalledJSON validator 1%positive (store SampleConfig.podAssetNoData) =
    (Err (ErrWrap "failed to convert asset to admission request: "
            (Some (ErrMsg "asset has no resource data"))),
     updated (store SampleConfig.podAssetNoData) 1%positive
       (<[ancestryPathKey := VStr "organizations/1"]> SampleConfig.podAssetNoData)).
Proof.
  apply (ReviewUnmarshalledJSON_conversion_failure validator 1%positive
           (store SampleConfig.podAssetNoData) SampleConfig.podAssetNoData
           "organizations/1" (ErrMsg "asset has no resource data"));
    [reflexivity | vm_compute; reflexivity | vm_compute; reflexivity
    | vm_compute; reflexivity].
Defined.

(** The stricter Terraform client refuses a planned change, which names no
    kind. *)
Lemma ReviewTFResourceChange_client_failure_witness :
  fst (ReviewTFResourceChange (Col := SampleConfig.strictCollaborators)
         SampleConfig.strictValidator 1%positive
         (SampleConfig.strictStore plannedChange)) =
    Err (ErrWrap "TF target Constraint Framework review call failed: "
           (Some (ErrMsg "object has neither kind nor asset type"))).
Proof.
  rewrite (ReviewTFResourceChange_client_failure
             (Col := SampleConfig.strictCollaborators)
             SampleConfig.strictValidator 1%positive
             (SampleConfig.strictStore plannedChange)
             (ErrMsg "object has neither kind nor asset type"));
    [reflexivity | vm_compute; reflexivity | vm_compute; reflexivity].
Defined.

(** Text that the reference decoder refuses. *)
Lemma ReviewJSON_invalid_witness :
  fst (ReviewJSON validator "{" (store bucketAsset)) =
    Err (ErrWrap "failed to unmarshal json: "
           (Some (ErrMsg "unexpected end of JSON input"))) /\
  heap (snd (ReviewJSON validator "{" (store bucketAsset))) !! 1%positive
    = Some bucketAsset.
Proof.
  destruct (ReviewJSON_invalid validator "{" (store bucketAsset)
              (ErrMsg "unexpected end of JSON input"))
    as (Herr & _ & Hframe); [reflexivity|].
  split; [exact Herr|]. rewrite Hframe; [reflexivity|]. by exists bucketAsset.
Defined.

(** The text of a bucket asset decodes into a new map, which is reviewed on
    the GCP client and ends up with the normalised ancestry path; the pod
    asset that the caller already held is untouched. *)
Lemma ReviewJSON_decoded_witness :
  jsonUnmarshal (Collaborators := SampleConfig.decodingCollaborators)
    SampleConfig.bucketText = inl bucketAsset /\
  fst (ReviewJSON (Col := SampleConfig.decodingCollaborators) validator
         SampleConfig.bucketText (store podAsset)) =
    Ok {| Target := GCPTarget;
          Name := "//storage.googleapis.com/my-bucket";
          InputResource := 2%positive; ReviewResource := 2%positive;
          Responses := (@nil string : @responses engine) |} /\
  trace (snd (ReviewJSON (Col := SampleConfig.decodingCollaborators) validator
                SampleConfig.bucketText (store podAsset))) =
    [EvReview GCPTarget 2%positive
       (<[ancestryPathKey := VStr "organizations/1/projects/2"]> bucketAsset)] /\
  content (snd (ReviewJSON (Col := SampleConfig.decodingCollaborators) validator
                  SampleConfig.bucketText (store podAsset))) 2%positive =
    <[ancestryPathKey := VStr "organizations/1/projects/2"]> bucketAsset /\
  heap (snd (ReviewJSON (Col := SampleConfig.decodingCollaborators) validator
               SampleConfig.bucketText (store podAsset))) !! 1%positive
    = Some podAsset.
Proof.
  destruct (ReviewJSON_decoded (Col := SampleConfig.decodingCollaborators)
              validator SampleConfig.bucketText (store podAsset) bucketAsset)
    as (Hrun & _ & Hmap & Hframe); [vm_compute; reflexivity|].
  split; [vm_compute; reflexivity|].
  split; [rewrite Hrun; vm_compute; reflexivity|].
  split; [rewrite Hrun; vm_compute; reflexivity|].
  split.
  - exact (Hmap "organizations/1/projects/2" eq_refl).
  - rewrite Hframe; [reflexivity|]. by exists podAsset.
Defined.

(** An asset without a name is turned away by the validation. *)
Lemma ReviewAsset_rejects_witness :
  ReviewAsset validator (bucketAssetNoName : @Asset engine collaborators) (State ∅ []) =
    (Err (ErrMsg "missing asset name"), State ∅ []).
Proof.
  destruct (ReviewAsset_rejects validator (bucketAssetNoName : @Asset engine collaborators)
              (State ∅ [])
              (ErrMsg "missing asset name")) as (_ & Hvalid & _).
  exact (Hvalid (bucketAssetNoName : @Asset engine collaborators) eq_refl eq_refl).
Defined.

(** A bucket asset is reviewed in a map of its own. *)
Lemma ReviewAsset_reviews_copy_witness :
  heap (snd (ReviewAsset validator (bucketAsset : @Asset engine collaborators) (store podAsset))) !! 1%positive
    = Some podAsset.
Proof.
  destruct (ReviewAsset_reviews_copy validator
              (bucketAsset : @Asset engine collaborators) (bucketAsset : @Asset engine collaborators)
              (store podAsset) bucketAsset)
    as (_ & _ & Hframe); [reflexivity | reflexivity | reflexivity |].
  rewrite Hframe; [reflexivity|]. by exists podAsset.
Defined.
